(** * phpmyadmin_sql_backup: a shallow embedding of [download_sql_backup]

    The script drives the login form and the export form of a phpMyAdmin
    console and stores the dump it receives.  This development embeds
    [src/phpmyadmin_sql_backup.py] and states the properties of its
    specification over the embedding.

    Conventions.
    - A Python [str] is a [string]; [+++] is string concatenation.
    - A parsed document (the value of [html.fromstring(response.content)]) is
      an [Element] tree: tag, attributes, child elements.  Text nodes play no
      part in the queries of the script and are left out.  A reply whose
      body [lxml] refuses to parse is a reply of a kind of its own.
    - Each XPath query of the script is one function over [Element], named
      after the query.  Node sets are produced in document order.
    - The library functions the script calls ([str] methods, [os.path] in
      its POSIX flavour, the [re] constructs of the one pattern) are embedded
      from their CPython definitions; [urljoin] is a parameter.
    - The network, the clock and the file system are a read-only [World];
      what the run does to them (requests sent, lines printed on stderr,
      files written) is collected in a [Log] that the monad [M] threads.
      Cookies are the business of [requests] and do not show.  A call of
      [requests] that raises, be it that the transport fails or that the
      request cannot be built or encoded, is a failed reply of the world.
    - [download_sql_backup] is one function in the source.  Here it is the
      sequence of its paragraphs, each a definition with the lines it
      embeds. *)

From Stdlib Require Import String Ascii List Bool Arith ZArith Lia.
From Stdlib Require Import DecimalString DecimalNat FinFun.
Import ListNotations.

Local Open Scope string_scope.
Local Open Scope list_scope.

Infix "+++" := String.append (right associativity, at level 60).

(* ================================================================== *)
(** * Python strings *)
(* ================================================================== *)

Module PyStr.

(** [s.startswith(p)], returning the rest of [s] after [p]. *)
Fixpoint strip_prefix (p s : string) : option string :=
  match p with
  | EmptyString => Some s
  | String a p' =>
      match s with
      | EmptyString => None
      | String b s' => if Ascii.eqb a b then strip_prefix p' s' else None
      end
  end.

Definition startswith (s p : string) : bool :=
  match strip_prefix p s with Some _ => true | None => false end.

(** [needle in hay]. *)
Fixpoint contains (needle hay : string) : bool :=
  match strip_prefix needle hay with
  | Some _ => true
  | None =>
      match hay with
      | EmptyString => false
      | String _ hay' => contains needle hay'
      end
  end.

(** [s[:n]] and [s[n:]] for [0 <= n]. *)
Fixpoint take (n : nat) (s : string) : string :=
  match n, s with
  | S n', String a s' => String a (take n' s')
  | _, _ => EmptyString
  end.

Fixpoint drop (n : nat) (s : string) : string :=
  match n, s with
  | S n', String _ s' => drop n' s'
  | _, _ => s
  end.

(** [s.rfind(c)] for a one-character [c]: the highest index holding [c],
    [-1] when there is none. *)
Fixpoint rfind_from (c : ascii) (s : string) (i : Z) (found : Z) : Z :=
  match s with
  | EmptyString => found
  | String a s' => rfind_from c s' (i + 1) (if Ascii.eqb a c then i else found)
  end.

Definition rfind (c : ascii) (s : string) : Z := rfind_from c s 0 (-1).

(** [s[i:i+1]]: the empty string out of range. *)
Definition char_at (s : string) (i : nat) : string :=
  match String.get i s with
  | Some a => String a EmptyString
  | None => EmptyString
  end.

(** [s.endswith(c)] for a one-character [c]. *)
Fixpoint endswith_char (s : string) (c : ascii) : bool :=
  match s with
  | EmptyString => false
  | String a EmptyString => Ascii.eqb a c
  | String _ s' => endswith_char s' c
  end.

(** [s.split(c)] for a one-character separator: always at least one
    piece, one more piece than there are separators. *)
Fixpoint split_acc (c : ascii) (s : string) (cur : string) : list string :=
  match s with
  | EmptyString => [cur]
  | String a s' =>
      if Ascii.eqb a c then cur :: split_acc c s' EmptyString
      else split_acc c s' (cur +++ String a EmptyString)
  end.

Definition split (c : ascii) (s : string) : list string :=
  split_acc c s EmptyString.

(** [sep.join(l)]. *)
Fixpoint join (sep : string) (l : list string) : string :=
  match l with
  | [] => EmptyString
  | [x] => x
  | x :: rest => x +++ sep +++ join sep rest
  end.

(** [x in l] for a list of strings. *)
Definition mem (x : string) (l : list string) : bool :=
  existsb (String.eqb x) l.

(** [str(n)] for a non-negative integer. *)
Definition of_nat (n : nat) : string :=
  NilEmpty.string_of_uint (Nat.to_uint n).

(** [s.lower()] on ASCII letters. *)
Definition lower_ascii (a : ascii) : ascii :=
  let n := nat_of_ascii a in
  if Nat.leb 65 n && Nat.leb n 90 then ascii_of_nat (n + 32) else a.

Fixpoint lower (s : string) : string :=
  match s with
  | EmptyString => EmptyString
  | String a s' => String (lower_ascii a) (lower s')
  end.

(** Truthiness of an optional string: [None] and [''] are false. *)
Definition truthy (o : option string) : bool :=
  match o with
  | Some (String _ _) => true
  | _ => false
  end.

End PyStr.

(* ================================================================== *)
(** * Python dicts with string keys *)
(* ================================================================== *)

(** A dict keeps its keys in insertion order; assigning to a key that is
    present replaces the value in place. *)
Module PyDict.
Section Dict.
Context {V : Type}.

Definition t := list (string * V).

Fixpoint set (k : string) (v : V) (d : t) : t :=
  match d with
  | [] => [(k, v)]
  | (k', v') :: d' =>
      if String.eqb k' k then (k, v) :: d' else (k', v') :: set k v d'
  end.

Fixpoint get (k : string) (d : t) : option V :=
  match d with
  | [] => None
  | (k', v') :: d' => if String.eqb k' k then Some v' else get k d'
  end.
End Dict.
Arguments t : clear implicits.
End PyDict.

(* ================================================================== *)
(** * Documents and the XPath queries of the script *)
(* ================================================================== *)

#[warnings="-register-all"]
Inductive Element : Type :=
| Elem (tag : string) (attrib : list (string * string)) (children : list Element).

Definition tag (e : Element) : string :=
  match e with Elem t _ _ => t end.
Definition attrib (e : Element) : list (string * string) :=
  match e with Elem _ a _ => a end.
Definition children (e : Element) : list Element :=
  match e with Elem _ _ c => c end.

(** [element.get(name)]: [None] when the attribute is absent. *)
Definition get_attr (e : Element) (name : string) : option string :=
  PyDict.get name (attrib e).

(** [element.get(name, default)]. *)
Definition get_attr_default (e : Element) (name default : string) : string :=
  match get_attr e name with Some v => v | None => default end.

(** The predicate [[@name='v']]. *)
Definition attr_is (e : Element) (name v : string) : bool :=
  match get_attr e name with
  | Some x => String.eqb x v
  | None => false
  end.

Module XPath.

(** [descendant-or-self::*] in document order. *)
Fixpoint descendant_or_self (e : Element) : list Element :=
  match e with
  | Elem _ _ cs => e :: flat_map descendant_or_self cs
  end.

(** Proper descendants of [e] in document order. *)
Definition descendants (e : Element) : list Element :=
  flat_map descendant_or_self (children e).

(** The value of attribute [name] of each element of [l] that has it. *)
Definition attr_values (name : string) (l : list Element) : list string :=
  flat_map (fun e => match get_attr e name with
                     | Some v => [v]
                     | None => []
                     end) l.

(** [//a/@href] *)
Definition a_href (root : Element) : list string :=
  attr_values "href"
    (filter (fun e => String.eqb (tag e) "a") (descendant_or_self root)).

Definition is_form_with (name v : string) (e : Element) : bool :=
  String.eqb (tag e) "form" && attr_is e name v.

(** [//form[@name='v']/@action] (and the same with [@id]). *)
Definition form_action (name v : string) (root : Element) : list string :=
  attr_values "action"
    (filter (is_form_with name v) (descendant_or_self root)).

Definition is_hidden_input (e : Element) : bool :=
  String.eqb (tag e) "input" && attr_is e "type" "hidden".

(** [//form[@name='v']//input[@type='hidden']]: the hidden inputs that
    have a matching form among their ancestors, each once, in document
    order.  [inside] tells whether an ancestor of [e] matched. *)
Fixpoint hidden_inputs_under (name v : string) (inside : bool) (e : Element)
  : list Element :=
  match e with
  | Elem _ _ cs =>
      (if inside && is_hidden_input e then [e] else [])
        ++ flat_map (hidden_inputs_under name v (inside || is_form_with name v e)) cs
  end.

Definition form_hidden_inputs (name v : string) (root : Element) : list Element :=
  hidden_inputs_under name v false root.

(** What makes [e] the target of [id('v')] in an HTML document: an [id]
    attribute with that value, or, on an [a] element, a [name] attribute
    with that value. *)
Definition has_id (v : string) (e : Element) : bool :=
  attr_is e "id" v || (String.eqb (tag e) "a" && attr_is e "name" v).

(** [id('v')]: the first element, in document order, that [v] identifies. *)
Definition by_id (v : string) (root : Element) : option Element :=
  find (has_id v) (descendant_or_self root).

(** [id('topmenu')//a[contains(@href,'marker')]/@href] *)
Definition topmenu_a_href_containing (marker : string) (root : Element)
  : list string :=
  match by_id "topmenu" root with
  | None => []
  | Some menu =>
      attr_values "href"
        (filter (fun e => String.eqb (tag e) "a"
                          && match get_attr e "href" with
                             | Some h => PyStr.contains marker h
                             | None => PyStr.contains marker EmptyString
                             end)
                (descendants menu))
  end.

(** [//select[@name='db_select[]']/option/@value]: the [value] of each
    [option] whose parent is a matching [select], in document order.
    [parent_matches] tells whether the parent of [e] matched. *)
Fixpoint select_option_values (parent_matches : bool) (e : Element)
  : list string :=
  match e with
  | Elem _ _ cs =>
      (if parent_matches && String.eqb (tag e) "option"
       then attr_values "value" [e] else [])
        ++ flat_map (select_option_values
                       (String.eqb (tag e) "select"
                        && attr_is e "name" "db_select[]")) cs
  end.

Definition db_select_option_value (root : Element) : list string :=
  select_option_values false root.

End XPath.

(* ================================================================== *)
(** * [is_login_successful] *)
(* ================================================================== *)

(** [itertools.product(xs, ys)] *)
Definition product {A B : Type} (xs : list A) (ys : list B) : list (A * B) :=
  flat_map (fun x => map (fun y => (x, y)) ys) xs.

Definition target_substrings : list string :=
  ["frame_content"; "server_export.php"; "index.php?route=/server/export"].

Definition is_login_successful (tree : Element) : bool :=
  let hrefs := XPath.a_href tree in
  let combinations := product target_substrings hrefs in
  existsb (fun '(substring, href) => PyStr.contains substring href) combinations.

(* ================================================================== *)
(** * [os.path] (POSIX flavour) *)
(* ================================================================== *)

Module PyPath.

Definition char_at (p : string) (i : Z) : string :=
  if (i <? 0)%Z then EmptyString else PyStr.char_at p (Z.to_nat i).

(** The loop of [genericpath._splitext] that skips the leading dots of
    the last component: [true] when it returns from inside the loop, that
    is when a character other than the dot lies in
    [filenameIndex .. dotIndex - 1].  [steps] is [dotIndex - filenameIndex],
    the number of times the loop test can hold. *)
Fixpoint splitext_loop (p : string) (steps : nat) (filenameIndex : Z) : bool :=
  match steps with
  | O => false
  | S steps' =>
      if negb (String.eqb (char_at p filenameIndex) ".") then true
      else splitext_loop p steps' (filenameIndex + 1)
  end.

(** [os.path.splitext(p)] *)
Definition splitext (p : string) : string * string :=
  let sepIndex := PyStr.rfind "/" p in
  let dotIndex := PyStr.rfind "." p in
  if (dotIndex >? sepIndex)%Z then
    let filenameIndex := (sepIndex + 1)%Z in
    if splitext_loop p (Z.to_nat (dotIndex - filenameIndex)) filenameIndex
    then (PyStr.take (Z.to_nat dotIndex) p, PyStr.drop (Z.to_nat dotIndex) p)
    else (p, EmptyString)
  else (p, EmptyString).

(** [os.path.join(a, b)] *)
Definition join (a b : string) : string :=
  if PyStr.startswith b "/" then b
  else if orb (String.eqb a EmptyString) (PyStr.endswith_char a "/") then a +++ b
  else a +++ "/" +++ b.

End PyPath.

(* ================================================================== *)
(** * The regular expression for the [Content-Disposition] header *)
(* ================================================================== *)

(** A backtracking matcher for the constructs the pattern uses, with the
    meaning they have in Python's [re] without flags: [^] holds at position
    0 only, [$] at the end of the string or just before a newline that ends
    it, [.] is any character but the newline, [*] and [+] are greedy. *)
Module Re.

Inductive node : Type :=
| Bol                                   (* ^ *)
| Eol                                   (* $ *)
| Lit (s : string)                      (* a literal string *)
| Star (cls : ascii -> bool)            (* c*  for a character class c *)
| GroupPlus (cls : ascii -> bool).      (* (?P<filename>c+) *)

Definition newline : ascii := ascii_of_nat 10.

(** [.] *)
Definition dot (c : ascii) : bool := negb (Ascii.eqb c newline).

(** [[^x]] *)
Definition not_char (x : ascii) (c : ascii) : bool := negb (Ascii.eqb c x).

Definition at_end (s : string) : bool :=
  match s with
  | EmptyString => true
  | String c EmptyString => Ascii.eqb c newline
  | _ => false
  end.

(** A continuation: what is left of the pattern, applied to the position
    reached, the rest of the subject and the text of the named group. *)
Definition cont : Type := nat -> string -> option string -> option (option string).

(** Greedy [c*] followed by [k]: one more character first, then fewer. *)
Fixpoint star (cls : ascii -> bool) (k : cont)
         (pos : nat) (s : string) (group : option string) {struct s}
  : option (option string) :=
  match s with
  | String c s' =>
      if cls c then
        match star cls k (S pos) s' group with
        | Some m => Some m
        | None => k pos s group
        end
      else k pos s group
  | EmptyString => k pos s group
  end.

(** Greedy [(?P<filename>c+)] followed by [k]; [taken] is what the group
    holds so far. *)
Fixpoint plus (cls : ascii -> bool) (k : cont)
         (taken : string) (pos : nat) (s : string) {struct s}
  : option (option string) :=
  match s with
  | String c s' =>
      if cls c then
        let taken' := taken +++ String c EmptyString in
        match plus cls k taken' (S pos) s' with
        | Some m => Some m
        | None => k (S pos) s' (Some taken')
        end
      else None
  | EmptyString => None
  end.

(** [run r pos s group]: match the nodes [r] against [s], the rest of
    the subject from position [pos] on; [group] is the text of the named
    group so far.  The result is the group's text in the first match the
    backtracking search finds. *)
Fixpoint run (r : list node) : cont :=
  match r with
  | [] => fun _ _ group => Some group
  | Bol :: r' => fun pos s group =>
      if Nat.eqb pos 0 then run r' pos s group else None
  | Eol :: r' => fun pos s group =>
      if at_end s then run r' pos s group else None
  | Lit l :: r' => fun pos s group =>
      match PyStr.strip_prefix l s with
      | Some s' => run r' (pos + String.length l) s' group
      | None => None
      end
  | Star cls :: r' => star cls (run r')
  | GroupPlus cls :: r' => fun pos s _ => plus cls (run r') EmptyString pos s
  end.

(** [pattern.match(s)]: the match object is represented by the text of
    the named group. *)
Definition re_match (r : list node) (s : string) : option (option string) :=
  run r 0 s None.

End Re.

(** The double quote character. *)
Definition dquote : ascii := "034"%char.

(** The literal text [filename=] followed by a double quote. *)
Definition filename_eq_quote : string :=
  Eval cbv in "filename=" +++ String dquote EmptyString.

(** [re.compile(r'^.*filename=Q(?P<filename>[^Q]+)Q.*$')], where [Q] stands
    for the double quote. *)
Definition CONTENT_DISPOSITION_FILENAME_RE : list Re.node :=
  [Re.Bol; Re.Star Re.dot; Re.Lit filename_eq_quote;
   Re.GroupPlus (Re.not_char dquote); Re.Lit (String dquote EmptyString);
   Re.Star Re.dot; Re.Eol].

Definition DEFAULT_PREFIX_FORMAT : string := "%Y-%m-%d--%H-%M-%S-UTC_".

(* ================================================================== *)
(** * The world of a run, and the monad of the script *)
(* ================================================================== *)

(** A value of the [data=] dict of a POST: a string, or a list of strings
    (sent as one field per item, none for the empty list). *)
Inductive FormValue : Type :=
| Str (s : string)
| StrList (l : list string).

Definition FormData := PyDict.t FormValue.

Record Request : Type := mkRequest {
  method : string;
  req_url : string;
  data : option FormData;
  req_timeout : Z;
  stream : bool;
  (** the basic-auth pair that [requests] attaches: the session's [auth] *)
  req_auth : option (string * string)
}.

Record Response : Type := mkResponse {
  status_code : Z;
  (** [html.fromstring(response.content)] *)
  html_tree : Element;
  (** [response.headers], looked up without regard to case *)
  headers : list (string * string);
  (** the bytes [response.iter_content] yields, in one piece *)
  raw : string
}.

(** [response.headers.get(name, default)] *)
Definition headers_get (r : Response) (name default : string) : string :=
  match find (fun kv => String.eqb (PyStr.lower (fst kv)) (PyStr.lower name))
             (headers r) with
  | Some kv => snd kv
  | None => default
  end.

(** [requests.Session]: the only attribute that matters here is [auth]. *)
Record Session : Type := mkSession {
  auth : option (string * string)
}.

(** [requests.Session()] *)
Definition new_Session : Session := {| auth := None |}.

Inductive Exn : Type :=
| ValueError (msg : string)
| IndexError (msg : string)
| RequestException (msg : string)   (* raised inside [requests] *)
| OSError (msg : string)            (* raised by [open] or by [f.write] *)
| ParserError (msg : string).       (* raised by [html.fromstring] *)

(** What comes back for a request: a reply; the failure of the call
    inside [requests], with its message; or a reply whose body
    [html.fromstring] refuses with [msg] (an empty body, for one).  Of a
    reply of the last kind the script can use the status only; it stands
    for one without a [Content-Disposition] header. *)
Inductive NetReply : Type :=
| Replied (r : Response)
| Failed (msg : string)
| Unparsable (status : Z) (msg : string).

(** How the loop of lines 150-151 ends: every chunk is written, or the
    stream breaks, or a write fails, after [count] bytes have been
    written. *)
Inductive Transfer : Type :=
| Complete
| StreamBroken (count : nat) (msg : string)
| WriteFailed (count : nat) (msg : string).

(** What a run reads from its environment.  The [k]-th request of the run
    (counting from 0) is answered by [reply k]: the script is sequential, so
    any behaviour of a server during one run is such a sequence. *)
Record World : Type := mkWorld {
  reply : nat -> NetReply;
  (** [os.path.isfile] *)
  isfile : string -> bool;
  (** [datetime.datetime.utcnow().strftime(format)] *)
  utcnow_strftime : string -> string;
  (** [open(path, 'wb')]: [None] when it succeeds, the error otherwise *)
  open_wb : string -> option string;
  (** how the copy of the body into the file opened at [path] ends *)
  transfer : string -> Transfer
}.

(** What a run does to its environment. *)
Record Log : Type := mkLog {
  sent : list Request;
  stderr : list string;
  written : list (string * string)
}.

Definition empty_Log : Log := {| sent := []; stderr := []; written := [] |}.

Inductive Outcome (A : Type) : Type :=
| Ret (a : A)
| Raise (e : Exn)
| Diverges.   (* the loop at line 140 did not end within the fuel given *)
Arguments Ret {A} a.
Arguments Raise {A} e.
Arguments Diverges {A}.

Definition M (A : Type) : Type := Log -> Outcome A * Log.

Definition ret {A} (a : A) : M A := fun l => (Ret a, l).

Definition bind {A B} (m : M A) (k : A -> M B) : M B :=
  fun l =>
    match m l with
    | (Ret a, l') => k a l'
    | (Raise e, l') => (Raise e, l')
    | (Diverges, l') => (Diverges, l')
    end.

Definition raise {A} (e : Exn) : M A := fun l => (Raise e, l).

Definition diverge {A} : M A := fun l => (Diverges, l).

Notation "x <- m ;; k" := (bind m (fun x => k))
  (at level 61, m at next level, right associativity).
Notation "m ;;; k" := (bind m (fun _ => k))
  (at level 61, right associativity).

(** [print(line, file=sys.stderr)] *)
Definition print_stderr (line : string) : M unit :=
  fun l => (Ret tt, {| sent := sent l; stderr := stderr l ++ [line];
                       written := written l |}).

(** The file [path] receives [body]: what the loop at lines 150-151
    leaves behind when it ends. *)
Definition write_file (path body : string) : M unit :=
  fun l => (Ret tt, {| sent := sent l; stderr := stderr l;
                       written := written l ++ [(path, body)] |}).

Section Script.

(** [urllib.parse.urljoin] *)
Variable urljoin : string -> string -> string.

Variable w : World.

(** The response object of an [Unparsable] reply. *)
Definition unparsed_response (status : Z) : Response :=
  {| status_code := status; html_tree := Elem "html" [] []; headers := [];
     raw := EmptyString |}.

Definition send (req : Request) : M Response :=
  fun l =>
    let l' := {| sent := sent l ++ [req]; stderr := stderr l;
                 written := written l |} in
    match reply w (length (sent l)) with
    | Replied r => (Ret r, l')
    | Failed msg => (Raise (RequestException msg), l')
    | Unparsable status _ => (Ret (unparsed_response status), l')
    end.

(** [html.fromstring(response.content)], [response] being the reply to
    the request sent last. *)
Definition fromstring (response : Response) : M Element :=
  fun l =>
    match reply w (pred (length (sent l))) with
    | Unparsable _ msg => (Raise (ParserError msg), l)
    | _ => (Ret (html_tree response), l)
    end.

(** [session.get(url, timeout=timeout)] *)
Definition session_get (session : Session) (url : string) (timeout : Z)
  : M Response :=
  send {| method := "GET"; req_url := url; data := None;
          req_timeout := timeout; stream := false;
          req_auth := auth session |}.

(** [session.post(url, data=data, timeout=timeout, stream=stream)] *)
Definition session_post (session : Session) (url : string) (form : FormData)
           (timeout : Z) (strm : bool) : M Response :=
  send {| method := "POST"; req_url := url; data := Some form;
          req_timeout := timeout; stream := strm;
          req_auth := auth session |}.

(** The body of the two loops over hidden inputs (lines 73-77, 116-120). *)
Definition add_hidden_input (form_data : FormData) (hidden_input : Element)
  : FormData :=
  let name := get_attr hidden_input "name" in
  let value := get_attr_default hidden_input "value" EmptyString in
  match name with
  | Some (String c n) => PyDict.set (String c n) (Str value) form_data
  | _ => form_data
  end.

(** The keyword arguments of [download_sql_backup]. *)
Record Args : Type := mkArgs {
  url : string;
  user : string;
  password : string;
  dry_run : bool;
  overwrite_existing : bool;
  prepend_date : bool;
  basename : option string;
  output_directory : string;
  exclude_dbs : option string;
  compression : string;
  prefix_format : option string;
  timeout : Z;
  http_auth : option string;
  server_name : option string
}.

(** Lines 58-86: load the login page, post the credentials, check the
    page that comes back. *)
Definition login (a : Args) (session : Session) : M Element :=
  response <- session_get session (url a) (timeout a) ;;
  if negb (status_code response =? 200)%Z then
    raise (ValueError "Failed to load the login page.")
  else
    tree <- fromstring response ;;
    let form_action := XPath.form_action "id" "login_form" tree in
    let form_action := match form_action with
                       | x :: _ => x
                       | [] => url a
                       end in
    let form_data := [("pma_username", Str (user a));
                      ("pma_password", Str (password a))] in
    let hidden_inputs := XPath.form_hidden_inputs "id" "login_form" tree in
    let form_data := fold_left add_hidden_input hidden_inputs form_data in
    login_response <- session_post session (urljoin (url a) form_action)
                                   form_data (timeout a) false ;;
    if negb (status_code login_response =? 200)%Z then
      raise (ValueError "Could not log in. Please check your credentials.")
    else
      tree <- fromstring login_response ;;
      if negb (is_login_successful tree) then
        raise (ValueError "Could not log in. Please check your credentials.")
      else ret tree.

(** Lines 88-98: find the export link in the top menu and load the page
    it points to. *)
Definition load_export_page (a : Args) (session : Session) (tree : Element)
  : M Element :=
  let export_url := XPath.topmenu_a_href_containing "server_export.php" tree in
  let export_url :=
    match export_url with
    | [] => XPath.topmenu_a_href_containing "index.php?route=/server/export" tree
    | _ => export_url
    end in
  match export_url with
  | [] => raise (ValueError "Could not find export URL.")
  | export_url :: _ =>
      export_response <- session_get session (urljoin (url a) export_url)
                                     (timeout a) ;;
      fromstring export_response
  end.

(** Line 105: the warning. *)
Definition no_databases_warning (dbs_available : list string) : string :=
  "Warning: no databases to dump (databases available: "
    +++ String dquote (PyStr.join ", " dbs_available)
    +++ String dquote ")".

(** Lines 110-120: the body of the export request. *)
Definition export_form_data (a : Args) (export_tree : Element)
           (dbs_to_dump : list string) : FormData :=
  let form_data := [("db_select[]", StrList dbs_to_dump)] in
  let form_data := PyDict.set "compression" (Str (compression a)) form_data in
  let form_data := PyDict.set "what" (Str "sql") form_data in
  let form_data := PyDict.set "filename_template" (Str "@SERVER@") form_data in
  let form_data := PyDict.set "sql_structure_or_data"
                              (Str "structure_and_data") form_data in
  let dump_hidden_inputs := XPath.form_hidden_inputs "name" "dump" export_tree in
  fold_left add_hidden_input dump_hidden_inputs form_data.

(** Lines 101-123: choose the databases, build the form, submit it. *)
Definition submit_export (a : Args) (session : Session)
           (exclude_dbs : list string) (export_tree : Element) : M Response :=
  let dbs_available := XPath.db_select_option_value export_tree in
  let dbs_to_dump :=
    filter (fun db_name => negb (PyStr.mem db_name exclude_dbs)) dbs_available in
  (match dbs_to_dump with
   | [] => print_stderr (no_databases_warning dbs_available)
   | _ => ret tt
   end) ;;;
  match XPath.form_action "name" "dump" export_tree with
  | [] => raise (IndexError "list index out of range")
  | dump_form_action :: _ =>
      let form_data := export_form_data a export_tree dbs_to_dump in
      session_post session (urljoin (url a) dump_form_action) form_data
                   (timeout a) true
  end.

(** Line 127: the message of the error for an unusable header. *)
Definition filename_error (content_disposition : string) : Exn :=
  ValueError ("Could not determine SQL backup filename from "
                +++ content_disposition).

(** Lines 124-134: the name under which the dump is to be stored. *)
Definition output_filename (a : Args) (prefix_format : string)
           (file_response : Response) : M string :=
  let content_disposition :=
    headers_get file_response "Content-Disposition" EmptyString in
  match Re.re_match CONTENT_DISPOSITION_FILENAME_RE content_disposition with
  | None => raise (filename_error content_disposition)
  | Some group =>
      let content_filename :=
        match group with Some g => g | None => EmptyString end in
      let filename :=
        match basename a with
        | None => content_filename
        | Some b => b +++ snd (PyPath.splitext content_filename)
        end in
      let filename :=
        if prepend_date a then utcnow_strftime w prefix_format +++ filename
        else filename in
      ret (PyPath.join (output_directory a) filename)
  end.

(** Line 141: the [n]-th alternative name. *)
Definition alternate (base ext : string) (n : nat) : string :=
  base +++ "_(" +++ PyStr.of_nat n +++ ")" +++ ext.

(** Lines 140-145: the loop, run for at most [fuel] rounds. *)
Fixpoint alternate_loop (fuel : nat) (base ext : string) (n : nat)
  : option string :=
  match fuel with
  | O => None
  | S fuel' =>
      let alternate_out_filename := alternate base ext n in
      if negb (isfile w alternate_out_filename) then Some alternate_out_filename
      else alternate_loop fuel' base ext (n + 1)
  end.

(** Line 139: the notice printed when the name is taken. *)
Definition exists_notice (out_filename : string) : string :=
  "File " +++ out_filename
    +++ " already exists, to overwrite it use --overwrite-existing".

(** Lines 136-145: step aside when the name is taken. *)
Definition avoid_collision (fuel : nat) (a : Args) (out_filename : string)
  : M string :=
  if isfile w out_filename && negb (overwrite_existing a) then
    let '(base, ext) := PyPath.splitext out_filename in
    print_stderr (exists_notice out_filename) ;;;
    match alternate_loop fuel base ext 1 with
    | Some alternate_out_filename => ret alternate_out_filename
    | None => diverge
    end
  else ret out_filename.

(** Lines 147-151: store the body unless this is a dry run.  When the
    stream breaks or a write fails the file keeps what was written. *)
Definition save (a : Args) (file_response : Response) (out_filename : string)
  : M unit :=
  if negb (dry_run a) then
    match open_wb w out_filename with
    | Some msg => raise (OSError msg)
    | None =>
        match transfer w out_filename with
        | Complete => write_file out_filename (raw file_response)
        | StreamBroken count msg =>
            write_file out_filename (PyStr.take count (raw file_response)) ;;;
            raise (RequestException msg)
        | WriteFailed count msg =>
            write_file out_filename (PyStr.take count (raw file_response)) ;;;
            raise (OSError msg)
        end
    end
  else ret tt.

(** Line 54: the format of the date prefix. *)
Definition effective_prefix_format (a : Args) : string :=
  if PyStr.truthy (prefix_format a)
  then match prefix_format a with Some f => f | None => EmptyString end
  else DEFAULT_PREFIX_FORMAT.

(** Line 55: the names of the databases to leave out. *)
Definition excluded (a : Args) : list string :=
  if PyStr.truthy (exclude_dbs a)
  then match exclude_dbs a with
       | Some e => PyStr.split "," e
       | None => []
       end
  else [].

(** [download_sql_backup], lines 51-153. *)
Definition download_sql_backup (fuel : nat) (a : Args) : M string :=
  let prefix_format := effective_prefix_format a in
  let exclude_dbs := excluded a in
  let session := new_Session in
  tree <- login a session ;;
  export_tree <- load_export_page a session tree ;;
  file_response <- submit_export a session exclude_dbs export_tree ;;
  out_filename <- output_filename a prefix_format file_response ;;
  out_filename <- avoid_collision fuel a out_filename ;;
  save a file_response out_filename ;;;
  ret out_filename.

End Script.

(* ================================================================== *)
(** * Vocabulary of the statements *)
(* ================================================================== *)

(** Every character of [s] is in the class [p]. *)
Fixpoint all_chars (p : ascii -> bool) (s : string) : bool :=
  match s with
  | EmptyString => true
  | String c s' => p c && all_chars p s'
  end.

(** The end of a header value after the closing quote: text without a
    newline, or such text and one final newline. *)
Definition line_tail (s : string) : Prop :=
  all_chars Re.dot s = true
  \/ exists s0, s = s0 +++ String Re.newline EmptyString
                /\ all_chars Re.dot s0 = true.

(** [hdr] holds the parameter [filename=] with the quoted, non-empty,
    quote-free text [f], on one line. *)
Definition quoted_filename (hdr f : string) : Prop :=
  exists pre post,
    hdr = pre +++ filename_eq_quote +++ f +++ String dquote post
    /\ all_chars Re.dot pre = true
    /\ f <> EmptyString
    /\ all_chars (Re.not_char dquote) f = true
    /\ line_tail post.

(** [dir] is what stands before the last component of a path: nothing,
    or a text that ends in a slash. *)
Definition directory_part (dir : string) : Prop :=
  dir = EmptyString \/ exists d, dir = d +++ "/".

(** [stem] and [ext] are the stem and the extension of the file name [f].
    The extension begins at the last dot of the last component of [f] and
    holds the dot, provided a character other than the dot stands before
    that dot in the component; otherwise ([f] without a dot in its last
    component, or with leading dots only) the extension is empty. *)
Definition stem_and_extension (f stem ext : string) : Prop :=
  f = stem +++ ext
  /\ ((exists dir name e,
         stem = dir +++ name /\ ext = String "." e
         /\ directory_part dir
         /\ all_chars (Re.not_char "/") name = true
         /\ all_chars (Ascii.eqb ".") name = false
         /\ all_chars (Re.not_char ".") e = true
         /\ all_chars (Re.not_char "/") e = true)
      \/ (ext = EmptyString
          /\ exists dir dots rest,
               f = dir +++ dots +++ rest
               /\ directory_part dir
               /\ all_chars (Ascii.eqb ".") dots = true
               /\ all_chars (Re.not_char ".") rest = true
               /\ all_chars (Re.not_char "/") rest = true)).

(** The document has no login form: no [form] element whose [id] is
    [login_form]. *)
Definition no_login_form (tree : Element) : Prop :=
  forall e, In e (XPath.descendant_or_self tree) ->
            XPath.is_form_with "id" "login_form" e = false.

(** The value of the last of the hidden inputs [hs] that is named [n];
    an input without a name, or with the empty name, names nothing. *)
Fixpoint last_hidden_value (n : string) (hs : list Element) : option string :=
  match hs with
  | [] => None
  | h :: hs' =>
      match last_hidden_value n hs' with
      | Some v => Some v
      | None =>
          match get_attr h "name" with
          | Some (String c m) =>
              if String.eqb (String c m) n
              then Some (get_attr_default h "value" EmptyString)
              else None
          | _ => None
          end
      end
  end.

(** The arguments [a] with another password. *)
Definition with_password (a : Args) (p : string) : Args :=
  {| url := url a; user := user a; password := p; dry_run := dry_run a;
     overwrite_existing := overwrite_existing a;
     prepend_date := prepend_date a; basename := basename a;
     output_directory := output_directory a; exclude_dbs := exclude_dbs a;
     compression := compression a; prefix_format := prefix_format a;
     timeout := timeout a; http_auth := http_auth a;
     server_name := server_name a |}.


(** [m] only adds requests to the log, each of them in [P]. *)
Definition sends_only {A} (P : Request -> Prop) (m : M A) : Prop :=
  forall l, exists rest, sent (snd (m l)) = sent l ++ rest /\ Forall P rest.


Section RunVocabulary.

Variable urljoin : string -> string -> string.
Variable w : World.

(** Started from the log [l], the run has logged in, loaded the export
    page [export_tree] and stands at the log [l'] before line 101. *)
Definition export_page_loaded (a : Args) (l : Log)
           (export_tree : Element) (l' : Log) : Prop :=
  exists tree l1,
    login urljoin w a new_Session l = (Ret tree, l1)
    /\ load_export_page urljoin w a new_Session tree l1 = (Ret export_tree, l').

(** Started from the log [l], the run has submitted the export form,
    holds [file_response] and stands at the log [l'] before line 124. *)
Definition submitted (a : Args) (l : Log)
           (file_response : Response) (l' : Log) : Prop :=
  exists export_tree l2,
    export_page_loaded a l export_tree l2
    /\ submit_export urljoin w a new_Session (excluded a) export_tree l2
       = (Ret file_response, l').




End RunVocabulary.

(* ================================================================== *)
(** * A console to run the script against *)
(* ================================================================== *)

(** Pages of a small console, the replies of its server, and arguments
    of runs; the statements below are tried on them. *)
Module Console.

Definition input_hidden (name value : string) : Element :=
  Elem "input" [("type", "hidden"); ("name", name); ("value", value)] [].

Definition link (href : string) : Element :=
  Elem "a" [("href", href)] [].

Definition page (body : list Element) : Element :=
  Elem "html" [] [Elem "body" [] body].

(** A login page with the login form. *)
Definition login_page : Element :=
  page [Elem "form" [("id", "login_form"); ("action", "index.php")]
          [input_hidden "token" "abc";
           Elem "input" [("type", "text"); ("name", "pma_username")] []]].

(** A login page without it. *)
Definition bare_page : Element :=
  page [Elem "p" [] []].

(** The page after a login that worked. *)
Definition home_page : Element :=
  page [Elem "div" [("id", "topmenu")]
          [link "server_databases.php"; link "server_export.php?x=1"]].

(** The page after a login that did not. *)
Definition denied_page : Element :=
  page [link "doc/index.html"].

Definition db_select (names : list string) : Element :=
  Elem "select" [("name", "db_select[]")]
       (map (fun n => Elem "option" [("value", n)] []) names).

(** The export page offering the databases [shop] and [logs]. *)
Definition export_page : Element :=
  page [Elem "form" [("name", "dump"); ("action", "export.php")]
          [input_hidden "token" "abc"; db_select ["shop"; "logs"]]].

(** An export page whose form carries hidden inputs named like the fixed
    parameters. *)
Definition overriding_export_page : Element :=
  page [Elem "form" [("name", "dump"); ("action", "export.php")]
          [input_hidden "db_select[]" "mysql";
           input_hidden "what" "csv";
           db_select ["shop"; "logs"]]].

(** The value [attachment; filename=Qshop_logs.sqlQ], [Q] the quote. *)
Definition attachment : string :=
  Eval cbv in "attachment; " +++ filename_eq_quote +++ "shop_logs.sql"
              +++ String dquote EmptyString.

Definition html_reply (status : Z) (tree : Element) : NetReply :=
  Replied {| status_code := status; html_tree := tree; headers := [];
             raw := EmptyString |}.

Definition dump_reply (hdrs : list (string * string)) : NetReply :=
  Replied {| status_code := 200; html_tree := Elem "html" [] [];
             headers := hdrs; raw := "-- dump" |}.

(** The replies of a server: to the request for the login page, to the
    login, to the request for the export page, to the export. *)
Definition replies (r0 r1 r2 r3 : NetReply) (k : nat) : NetReply :=
  match k with
  | 0 => r0
  | 1 => r1
  | 2 => r2
  | _ => r3
  end.

Definition world (reply : nat -> NetReply) (files : list string) : World :=
  {| reply := reply;
     isfile := fun p => PyStr.mem p files;
     utcnow_strftime := fun _ => "2024-12-01--13-05-09-UTC_";
     open_wb := fun _ => None;
     transfer := fun _ => Complete |}.

(** The console answering as it should. *)
Definition good_replies : nat -> NetReply :=
  replies (html_reply 200 login_page) (html_reply 200 home_page)
          (html_reply 200 export_page)
          (dump_reply [("Content-Disposition", attachment)]).

(** [urljoin] on the inputs met here: an absolute reference stands, a
    relative one goes after the base, which ends in a slash. *)
Definition urljoin (base ref : string) : string :=
  if PyStr.startswith ref "http://" then ref else base +++ ref.

Definition args : Args :=
  {| url := "http://db.example/pma/"; user := "backup"; password := "s3cret";
     dry_run := false; overwrite_existing := false; prepend_date := false;
     basename := None; output_directory := "/srv/dumps"; exclude_dbs := None;
     compression := "none"; prefix_format := None; timeout := 60;
     http_auth := None; server_name := None |}.

(** The console whose login page has lost its form. *)
Definition formless_replies : nat -> NetReply :=
  replies (html_reply 200 bare_page) (html_reply 200 home_page)
          (html_reply 200 export_page)
          (dump_reply [("Content-Disposition", attachment)]).

(** The console answering the request for the export page with an error
    status, the page in the body all the same. *)
Definition failing_export_replies : nat -> NetReply :=
  replies (html_reply 200 login_page) (html_reply 200 home_page)
          (html_reply 500 export_page)
          (dump_reply [("Content-Disposition", attachment)]).

(** The console answering the request for the export page with status
    404 and a page of its own. *)
Definition missing_export_replies : nat -> NetReply :=
  replies (html_reply 200 login_page) (html_reply 200 home_page)
          (html_reply 404 bare_page)
          (dump_reply [("Content-Disposition", attachment)]).

(** The console turning the login down. *)
Definition denying_replies : nat -> NetReply :=
  replies (html_reply 200 login_page) (html_reply 200 denied_page)
          (html_reply 200 export_page)
          (dump_reply [("Content-Disposition", attachment)]).


(** The arguments with basic-auth credentials configured. *)
Definition args_with_http_auth : Args :=
  {| url := url args; user := user args; password := password args;
     dry_run := dry_run args; overwrite_existing := false;
     prepend_date := false; basename := None;
     output_directory := output_directory args; exclude_dbs := None;
     compression := compression args; prefix_format := None;
     timeout := timeout args; http_auth := Some "operator:hunter2";
     server_name := None |}.

End Console.

(* ================================================================== *)
(** * The command line (lines 194-205) *)
(* ================================================================== *)

(** How the process ends: with an exit status, or not at all when the
    loop at line 140 does not end. *)
Inductive Exit : Type :=
| Exited (status : Z)
| Hangs.

(** [str(e)] *)
Definition exn_str (e : Exn) : string :=
  match e with
  | ValueError msg => msg
  | IndexError msg => msg
  | RequestException msg => msg
  | OSError msg => msg
  | ParserError msg => msg
  end.

(** Line 195. *)
Definition prefix_format_notice : string :=
  "Error: --prefix-format given without --prepend-date".

(** Line 204: the line on stdout. *)
Definition saved_line (dry : bool) (dump_fn : string) : string :=
  (if dry then "Would have" else "Successfully")
    +++ " saved SQL dump to: " +++ dump_fn.

Section CommandLine.

Variable urljoin : string -> string -> string.
Variable w : World.

(** Lines 194-205, what follows [parse_args]: the exit, the lines on
    stdout, and the log.  (What [parse_args] does with arguments it
    refuses is not part of it.) *)
Definition main (fuel : nat) (args : Args) (l : Log)
  : Exit * list string * Log :=
  if PyStr.truthy (prefix_format args) && negb (prepend_date args) then
    (Exited 2, [], snd (print_stderr prefix_format_notice l))
  else
    match download_sql_backup urljoin w fuel args l with
    | (Ret dump_fn, l') =>
        (Exited 0, [saved_line (dry_run args) dump_fn], l')
    | (Raise e, l') =>
        (Exited 1, [], snd (print_stderr ("Error: " +++ exn_str e) l'))
    | (Diverges, l') => (Hangs, [], l')
    end.

End CommandLine.

(* ================================================================== *)
(** * More vocabulary *)
(* ================================================================== *)

(** The arguments [a] with another [dry_run]. *)
Definition with_dry_run (a : Args) (dry : bool) : Args :=
  {| url := url a; user := user a; password := password a; dry_run := dry;
     overwrite_existing := overwrite_existing a;
     prepend_date := prepend_date a; basename := basename a;
     output_directory := output_directory a; exclude_dbs := exclude_dbs a;
     compression := compression a; prefix_format := prefix_format a;
     timeout := timeout a; http_auth := http_auth a;
     server_name := server_name a |}.

(** [l] is the beginning of [l']. *)
Definition prefix_of {A} (l l' : list A) : Prop := exists rest, l' = l ++ rest.

Module Console2.


(** A page that shows an export link, but not in the top menu. *)
Definition stray_link_page : Element :=
  Console.page
    [Elem "div" [("id", "topmenu")] [Console.link "server_databases.php"];
     Console.link "server_export.php"].


(** An export page without the export form. *)
Definition formless_export_page : Element :=
  Console.page [Console.db_select ["shop"]].


Definition refused_replies : nat -> NetReply :=
  Console.replies (Console.html_reply 503 Console.login_page)
                  (Console.html_reply 200 Console.home_page)
                  (Console.html_reply 200 Console.export_page)
                  (Console.dump_reply
                     [("Content-Disposition", Console.attachment)]).

Definition stray_link_replies : nat -> NetReply :=
  Console.replies (Console.html_reply 200 Console.login_page)
                  (Console.html_reply 200 stray_link_page)
                  (Console.html_reply 200 Console.export_page)
                  (Console.dump_reply
                     [("Content-Disposition", Console.attachment)]).

Definition formless_export_replies : nat -> NetReply :=
  Console.replies (Console.html_reply 200 Console.login_page)
                  (Console.html_reply 200 Console.home_page)
                  (Console.html_reply 200 formless_export_page)
                  (Console.dump_reply
                     [("Content-Disposition", Console.attachment)]).

(** The arguments of the console with a prefix format and no date. *)
Definition args_with_prefix_format : Args :=
  {| url := url Console.args; user := user Console.args;
     password := password Console.args; dry_run := false;
     overwrite_existing := false; prepend_date := false; basename := None;
     output_directory := output_directory Console.args;
     exclude_dbs := Some "logs, shop"; compression := "none";
     prefix_format := Some "%Y_"; timeout := 60; http_auth := None;
     server_name := None |}.

(** The arguments of the console with a basename and the date prefix. *)
Definition args_named : Args :=
  {| url := url Console.args; user := user Console.args;
     password := password Console.args; dry_run := false;
     overwrite_existing := false; prepend_date := true;
     basename := Some "backup";
     output_directory := output_directory Console.args;
     exclude_dbs := None; compression := "none";
     prefix_format := None; timeout := 60; http_auth := None;
     server_name := None |}.




(** A page after the login whose first element named [topmenu] is an
    anchor, the menu coming after it. *)
Definition named_anchor_page : Element :=
  Console.page
    [Elem "a" [("name", "topmenu")] [];
     Elem "div" [("id", "topmenu")]
       [Console.link "server_databases.php";
        Console.link "server_export.php?x=1"]].

Definition named_anchor_replies : nat -> NetReply :=
  Console.replies (Console.html_reply 200 Console.login_page)
                  (Console.html_reply 200 named_anchor_page)
                  (Console.html_reply 200 Console.export_page)
                  (Console.dump_reply
                     [("Content-Disposition", Console.attachment)]).

End Console2.

(* ================================================================== *)
(** * The requests of a run *)
(* ================================================================== *)

Section Requests.

Variable urljoin : string -> string -> string.
Variable w : World.

(** Line 59: the request for the login page. *)
Definition login_page_request (a : Args) : Request :=
  {| method := "GET"; req_url := url a; data := None;
     req_timeout := timeout a; stream := false; req_auth := None |}.

(** Lines 67-77: the fields of the login, given the login page. *)
Definition login_form_data (a : Args) (tree : Element) : FormData :=
  fold_left add_hidden_input
            (XPath.form_hidden_inputs "id" "login_form" tree)
            [("pma_username", Str (user a)); ("pma_password", Str (password a))].

(** Lines 64-65: where the login goes. *)
Definition login_action (a : Args) (tree : Element) : string :=
  match XPath.form_action "id" "login_form" tree with
  | x :: _ => x
  | [] => url a
  end.

(** Line 79: the login, given the login page. *)
Definition login_request (a : Args) (tree : Element) : Request :=
  {| method := "POST"; req_url := urljoin (url a) (login_action a tree);
     data := Some (login_form_data a tree);
     req_timeout := timeout a; stream := false; req_auth := None |}.

(** Lines 89-94: the export link of the page after the login. *)
Definition export_href (tree : Element) : option string :=
  match XPath.topmenu_a_href_containing "server_export.php" tree with
  | href :: _ => Some href
  | [] =>
      match XPath.topmenu_a_href_containing
              "index.php?route=/server/export" tree with
      | href :: _ => Some href
      | [] => None
      end
  end.

(** Line 97: the request for the export page. *)
Definition export_page_request (a : Args) (href : string) : Request :=
  {| method := "GET"; req_url := urljoin (url a) href; data := None;
     req_timeout := timeout a; stream := false; req_auth := None |}.

(** Line 103: the databases of the export page that are not left out. *)
Definition dbs_to_dump (a : Args) (export_tree : Element) : list string :=
  filter (fun db_name => negb (PyStr.mem db_name (excluded a)))
         (XPath.db_select_option_value export_tree).

(** Lines 104-106: the warning, when there is one. *)
Definition warning_lines (a : Args) (export_tree : Element) : list string :=
  match dbs_to_dump a export_tree with
  | [] => [no_databases_warning (XPath.db_select_option_value export_tree)]
  | _ :: _ => []
  end.

(** Line 123: the export, given the export page and the action of its
    form. *)
Definition dump_request (a : Args) (export_tree : Element) (action : string)
  : Request :=
  {| method := "POST"; req_url := urljoin (url a) action;
     data := Some (export_form_data a export_tree (dbs_to_dump a export_tree));
     req_timeout := timeout a; stream := true; req_auth := None |}.

(** The error of a page that came with status [status] and a body the
    parser refuses: that of the status check when there is one and the
    status is not 200, that of the parser otherwise. *)
Definition unparsed_page_error (checked : string) (status : Z) (msg : string)
  : Exn :=
  if (status =? 200)%Z then ParserError msg else ValueError checked.

(** Lines 124-153: from the reply to the export to the end. *)
Definition finish (fuel : nat) (a : Args) (file_response : Response) : M string :=
  out_filename <- output_filename w a (effective_prefix_format a)
                                  file_response ;;
  out_filename <- avoid_collision w fuel a out_filename ;;
  save w a file_response out_filename ;;;
  ret out_filename.

(** Lines 124-145: the path of the output. *)
Definition name_output (fuel : nat) (a : Args) (file_response : Response)
  : M string :=
  out_filename <- output_filename w a (effective_prefix_format a)
                                  file_response ;;
  avoid_collision w fuel a out_filename.

(** The log of a run that has sent [reqs], printed [err] and written
    nothing. *)
Definition log_of (reqs : list Request) (err : list string) : Log :=
  {| sent := reqs; stderr := err; written := [] |}.

End Requests.

(* ================================================================== *)
(** * Facts about strings *)
(* ================================================================== *)

Lemma str_app_assoc (a b c : string) : (a +++ b) +++ c = a +++ b +++ c.
Proof. induction a as [|x a IH]; simpl; [reflexivity | now rewrite IH]. Qed.

Lemma str_app_nil_r (a : string) : a +++ EmptyString = a.
Proof. induction a as [|x a IH]; simpl; [reflexivity | now rewrite IH]. Qed.

Lemma str_length_app (a b : string) :
  String.length (a +++ b) = String.length a + String.length b.
Proof. induction a as [|x a IH]; simpl; [reflexivity | now rewrite IH]. Qed.

Lemma str_app_inv_head (a b c : string) : a +++ b = a +++ c -> b = c.
Proof.
  induction a as [|x a IH]; simpl; intros H; [exact H|].
  injection H as H. now apply IH.
Qed.

Lemma str_app_inv_tail (a b c : string) : a +++ c = b +++ c -> a = b.
Proof.
  revert b. induction a as [|x a IH]; intros [|y b] H; simpl in H.
  - reflexivity.
  - apply (f_equal String.length) in H. simpl in H.
    rewrite str_length_app in H. lia.
  - apply (f_equal String.length) in H. simpl in H.
    rewrite str_length_app in H. lia.
  - injection H as -> H. f_equal. now apply IH.
Qed.

Lemma strip_prefix_iff (p s r : string) :
  PyStr.strip_prefix p s = Some r <-> s = p +++ r.
Proof.
  revert s. induction p as [|a p IH]; intros s; simpl.
  - split; [now intros [= ->] | now intros ->].
  - destruct s as [|b s].
    + split; discriminate.
    + destruct (Ascii.eqb_spec a b) as [->|Hne].
      * rewrite IH. split; [now intros -> | now intros [= ->]].
      * split; [discriminate | intros [= <- _]; contradiction].
Qed.

Lemma strip_prefix_app (p r : string) : PyStr.strip_prefix p (p +++ r) = Some r.
Proof. now apply strip_prefix_iff. Qed.

(** [needle in hay] holds exactly when [hay] is some text, [needle], some
    text. *)
Lemma contains_iff (needle hay : string) :
  PyStr.contains needle hay = true
  <-> exists pre post, hay = pre +++ needle +++ post.
Proof.
  induction hay as [|c hay IH].
  - simpl. destruct (PyStr.strip_prefix needle EmptyString) as [r|] eqn:E.
    + apply strip_prefix_iff in E. split; [|reflexivity].
      intros _. now exists EmptyString, r.
    + split; [discriminate|]. intros (pre & post & H).
      destruct pre; [|discriminate]. simpl in H.
      apply strip_prefix_iff in H. congruence.
  - cbn [PyStr.contains].
    destruct (PyStr.strip_prefix needle (String c hay)) as [r|] eqn:E.
    + apply strip_prefix_iff in E. split; [|reflexivity].
      intros _. now exists EmptyString, r.
    + rewrite IH. split.
      * intros (pre & post & ->). now exists (String c pre), post.
      * intros (pre & post & H). destruct pre as [|x pre].
        -- simpl in H. apply strip_prefix_iff in H. congruence.
        -- injection H as _ ->. now exists pre, post.
Qed.

Lemma all_chars_app (p : ascii -> bool) (a b : string) :
  all_chars p (a +++ b) = all_chars p a && all_chars p b.
Proof.
  induction a as [|c a IH]; simpl; [reflexivity|].
  now rewrite IH, andb_assoc.
Qed.

Lemma take_drop (n : nat) (s : string) : PyStr.take n s +++ PyStr.drop n s = s.
Proof.
  revert s. induction n as [|n IH]; intros [|a s]; simpl; try reflexivity.
  now rewrite IH.
Qed.

(* ================================================================== *)
(** * Facts about documents *)
(* ================================================================== *)

(** Induction over a document, with the property known of all children. *)
Lemma Element_rect_children (P : Element -> Prop) :
  (forall t a cs, Forall P cs -> P (Elem t a cs)) -> forall e, P e.
Proof.
  intros step. fix self 1. intros [t a cs]. apply step.
  induction cs as [|c cs IH]; constructor; [apply self | exact IH].
Qed.

Lemma in_attr_values (name v : string) (l : list Element) :
  In v (XPath.attr_values name l)
  <-> exists e, In e l /\ get_attr e name = Some v.
Proof.
  unfold XPath.attr_values. rewrite in_flat_map. split.
  - intros (e & He & Hv). exists e. split; [exact He|].
    destruct (get_attr e name) as [x|]; simpl in Hv; [|contradiction].
    destruct Hv as [->|[]]. reflexivity.
  - intros (e & He & Hv). exists e. split; [exact He|].
    rewrite Hv. now left.
Qed.

(** The links of a document: the [href] values of its [a] elements. *)
Lemma in_a_href (h : string) (tree : Element) :
  In h (XPath.a_href tree)
  <-> exists e, In e (XPath.descendant_or_self tree)
                /\ tag e = "a" /\ get_attr e "href" = Some h.
Proof.
  unfold XPath.a_href. rewrite in_attr_values. split.
  - intros (e & He & Hv). apply filter_In in He as [He Ht].
    apply String.eqb_eq in Ht. now exists e.
  - intros (e & He & Ht & Hv). exists e. split; [|exact Hv].
    apply filter_In. split; [exact He|]. now apply String.eqb_eq.
Qed.




Lemma in_product {A B} (xs : list A) (ys : list B) (x : A) (y : B) :
  In (x, y) (product xs ys) <-> In x xs /\ In y ys.
Proof.
  unfold product. rewrite in_flat_map. split.
  - intros (x' & Hx & Hy). apply in_map_iff in Hy as (y' & [= -> ->] & Hy).
    now split.
  - intros [Hx Hy]. exists x. split; [exact Hx|].
    apply in_map_iff. now exists y.
Qed.

(* ================================================================== *)
(** * The authentication check *)
(* ================================================================== *)

(** C7.  [is_login_successful] answers true exactly when the document has
    an [a] element whose [href] contains one of the three markers as a piece
    of text; it answers false exactly when no [href] of an [a] element
    contains any of them, which covers the document without links. *)
Theorem is_login_successful_iff (tree : Element) :
  (is_login_successful tree = true
   <-> exists e href substring pre post,
         In e (XPath.descendant_or_self tree)
         /\ tag e = "a" /\ get_attr e "href" = Some href
         /\ In substring ["frame_content"; "server_export.php";
                          "index.php?route=/server/export"]
         /\ href = pre +++ substring +++ post)
  /\ (is_login_successful tree = false
      <-> forall href substring,
            In href (XPath.a_href tree) -> In substring target_substrings ->
            PyStr.contains substring href = false)
  /\ (XPath.a_href tree = [] -> is_login_successful tree = false).
Proof.
  assert (Hex : is_login_successful tree = true
                <-> exists href substring,
                      In href (XPath.a_href tree)
                      /\ In substring target_substrings
                      /\ PyStr.contains substring href = true).
  { unfold is_login_successful. rewrite existsb_exists. split.
    - intros ([s h] & Hin & Hc). apply in_product in Hin as [Hs Hh].
      now exists h, s.
    - intros (h & s & Hh & Hs & Hc). exists (s, h). split; [|exact Hc].
      now apply in_product. }
  assert (Hall : is_login_successful tree = false
                 <-> forall href substring,
                       In href (XPath.a_href tree) ->
                       In substring target_substrings ->
                       PyStr.contains substring href = false).
  { split.
    - intros Hf h s Hh Hs.
      destruct (PyStr.contains s h) eqn:Hc; [|reflexivity].
      assert (is_login_successful tree = true) by (apply Hex; now exists h, s).
      congruence.
    - intros Hno. destruct (is_login_successful tree) eqn:Ht; [|reflexivity].
      destruct (proj1 Hex eq_refl) as (h & s & Hh & Hs & Hc).
      rewrite (Hno h s Hh Hs) in Hc. discriminate. }
  split; [|split].
  - rewrite Hex. split.
    + intros (h & s & Hh & Hs & Hc).
      apply in_a_href in Hh as (e & He & Ht & Hv).
      apply contains_iff in Hc as (pre & post & Hc).
      now exists e, h, s, pre, post.
    + intros (e & h & s & pre & post & He & Ht & Hv & Hs & Hc).
      exists h, s. split; [|split].
      * apply in_a_href. now exists e.
      * exact Hs.
      * apply contains_iff. now exists pre, post.
  - exact Hall.
  - intros Hnil. apply Hall. intros h s Hh. rewrite Hnil in Hh. destruct Hh.
Qed.

(** The page after a login has a marked link; the page of a refused
    login has a link, and none that is marked. *)
Lemma is_login_successful_pages :
  is_login_successful Console.home_page = true
  /\ is_login_successful Console.denied_page = false
  /\ is_login_successful Console.bare_page = false.
Proof. repeat split; reflexivity. Qed.

(* ================================================================== *)
(** * The header pattern *)
(* ================================================================== *)

Section Backtracking.

Variable cls : ascii -> bool.
Variable k : Re.cont.

Lemma star_sound (s : string) : forall pos group m,
  Re.star cls k pos s group = Some m ->
  exists a b, s = a +++ b /\ all_chars cls a = true
              /\ k (pos + String.length a) b group = Some m.
Proof.
  induction s as [|c s IH]; intros pos group m H; cbn [Re.star] in H.
  - exists EmptyString, EmptyString. now rewrite Nat.add_0_r.
  - destruct (cls c) eqn:Hc.
    + destruct (Re.star cls k (S pos) s group) as [m'|] eqn:Hs.
      * injection H as ->. apply IH in Hs as (a & b & -> & Ha & Hk).
        exists (String c a), b. simpl. rewrite Hc, Ha.
        rewrite Nat.add_succ_r. now repeat split.
      * exists EmptyString, (String c s). now rewrite Nat.add_0_r.
    + exists EmptyString, (String c s). now rewrite Nat.add_0_r.
Qed.

Lemma star_skip (s : string) (pos : nat) (group : option string) :
  k pos s group <> None -> Re.star cls k pos s group <> None.
Proof.
  intros H. destruct s as [|c s]; cbn [Re.star]; [exact H|].
  destruct (cls c); [|exact H].
  destruct (Re.star cls k (S pos) s group); [discriminate | exact H].
Qed.

Lemma star_complete (a b : string) : forall pos group,
  all_chars cls a = true ->
  k (pos + String.length a) b group <> None ->
  Re.star cls k pos (a +++ b) group <> None.
Proof.
  induction a as [|c a IH]; intros pos group Ha Hk.
  - simpl in *. rewrite Nat.add_0_r in Hk. now apply star_skip.
  - simpl in Ha. apply andb_prop in Ha as [Hc Ha].
    cbn [String.append Re.star]. rewrite Hc.
    simpl in Hk. rewrite Nat.add_succ_r in Hk.
    specialize (IH (S pos) group Ha Hk).
    destruct (Re.star cls k (S pos) (a +++ b) group); [discriminate | contradiction].
Qed.

Lemma plus_sound (s : string) : forall taken pos m,
  Re.plus cls k taken pos s = Some m ->
  exists f b, s = f +++ b /\ f <> EmptyString /\ all_chars cls f = true
              /\ k (pos + String.length f) b (Some (taken +++ f)) = Some m.
Proof.
  induction s as [|c s IH]; intros taken pos m H; cbn [Re.plus] in H.
  - discriminate.
  - destruct (cls c) eqn:Hc; [|discriminate].
    destruct (Re.plus cls k (taken +++ String c EmptyString) (S pos) s)
      as [m'|] eqn:Hp.
    + injection H as ->. apply IH in Hp as (f & b & -> & _ & Hf & Hk).
      exists (String c f), b. simpl. rewrite Hc, Hf.
      rewrite str_app_assoc in Hk. simpl in Hk.
      rewrite Nat.add_succ_r. repeat split; [discriminate | exact Hk].
    + exists (String c EmptyString), s. simpl. rewrite Hc.
      rewrite Nat.add_1_r. repeat split; [discriminate | exact H].
Qed.

Lemma plus_complete (f b : string) : forall taken pos,
  f <> EmptyString -> all_chars cls f = true ->
  k (pos + String.length f) b (Some (taken +++ f)) <> None ->
  Re.plus cls k taken pos (f +++ b) <> None.
Proof.
  induction f as [|c f IH]; intros taken pos Hne Hf Hk; [contradiction|].
  simpl in Hf. apply andb_prop in Hf as [Hc Hf].
  cbn [String.append Re.plus]. rewrite Hc.
  simpl in Hk. rewrite Nat.add_succ_r in Hk.
  destruct f as [|d f].
  - simpl in *. rewrite Nat.add_0_r in Hk.
    destruct (Re.plus cls k (taken +++ String c EmptyString) (S pos) b);
      [discriminate | exact Hk].
  - assert (Hgo : Re.plus cls k (taken +++ String c EmptyString) (S pos)
                          (String d f +++ b) <> None).
    { apply IH; [discriminate | exact Hf |].
      rewrite str_app_assoc. exact Hk. }
    destruct (Re.plus cls k (taken +++ String c EmptyString) (S pos)
                      (String d f +++ b));
      [discriminate | contradiction].
Qed.

End Backtracking.

Lemma at_end_iff (s : string) :
  Re.at_end s = true
  <-> s = EmptyString \/ s = String Re.newline EmptyString.
Proof.
  destruct s as [|c [|d s]]; simpl.
  - split; [now left | reflexivity].
  - destruct (Ascii.eqb_spec c Re.newline) as [->|Hne].
    + split; [now right | reflexivity].
    + split; [discriminate | intros [H|[= H]]; [discriminate | contradiction]].
  - split; [discriminate | intros [H|H]; discriminate].
Qed.

(** A match of the header pattern exhibits a quoted file name, and the
    group holds it. *)
Lemma header_match_sound (hdr : string) (group : option string) :
  Re.re_match CONTENT_DISPOSITION_FILENAME_RE hdr = Some group ->
  exists f, group = Some f /\ quoted_filename hdr f.
Proof.
  unfold Re.re_match, CONTENT_DISPOSITION_FILENAME_RE.
  cbn [Re.run Nat.eqb]. intros H.
  apply star_sound in H as (pre & b & -> & Hpre & H).
  destruct (PyStr.strip_prefix filename_eq_quote b) as [b1|] eqn:E1;
    [|discriminate].
  apply strip_prefix_iff in E1 as ->.
  apply plus_sound in H as (f & b2 & -> & Hne & Hf & H).
  destruct (PyStr.strip_prefix (String dquote EmptyString) b2) as [b3|] eqn:E2;
    [|discriminate].
  apply strip_prefix_iff in E2 as ->.
  apply star_sound in H as (c & d & -> & Hc & H).
  destruct (Re.at_end d) eqn:Hd; [|discriminate].
  injection H as <-. exists f. split; [reflexivity|].
  exists pre, (c +++ d). simpl. repeat split; try assumption.
  apply at_end_iff in Hd as [->| ->].
  - left. now rewrite str_app_nil_r.
  - right. now exists c.
Qed.

(** A header value with a quoted file name is matched. *)
Lemma header_match_complete (hdr f : string) :
  quoted_filename hdr f ->
  Re.re_match CONTENT_DISPOSITION_FILENAME_RE hdr <> None.
Proof.
  intros (pre & post & -> & Hpre & Hne & Hf & Htail).
  unfold Re.re_match, CONTENT_DISPOSITION_FILENAME_RE.
  cbn [Re.run Nat.eqb].
  apply star_complete; [exact Hpre|].
  rewrite strip_prefix_app.
  apply plus_complete; [exact Hne | exact Hf |].
  change (String dquote post) with (String dquote EmptyString +++ post).
  rewrite strip_prefix_app.
  destruct Htail as [Hpost | (s0 & -> & Hs0)].
  - rewrite <- (str_app_nil_r post). apply star_complete; [exact Hpost|].
    simpl. discriminate.
  - apply star_complete; [exact Hs0|]. simpl. discriminate.
Qed.

(* ================================================================== *)
(** * The monad of the script *)
(* ================================================================== *)

Lemma bind_Ret {A B} (m : M A) (k : A -> M B) (l l' : Log) (a : A) :
  m l = (Ret a, l') -> bind m k l = k a l'.
Proof. unfold bind. now intros ->. Qed.

Lemma bind_Raise {A B} (m : M A) (k : A -> M B) (l l' : Log) (e : Exn) :
  m l = (Raise e, l') -> bind m k l = (Raise e, l').
Proof. unfold bind. now intros ->. Qed.

Lemma bind_Diverges {A B} (m : M A) (k : A -> M B) (l l' : Log) :
  m l = (Diverges, l') -> bind m k l = (Diverges, l').
Proof. unfold bind. now intros ->. Qed.

(** ** Requests are only ever added *)

Section SendsOnly.

Variable P : Request -> Prop.

Lemma sends_only_ret {A} (a : A) : sends_only P (ret a).
Proof. intros l. exists []. now rewrite app_nil_r. Qed.

Lemma sends_only_raise {A} (e : Exn) : sends_only P (@raise A e).
Proof. intros l. exists []. now rewrite app_nil_r. Qed.

Lemma sends_only_diverge {A} : sends_only P (@diverge A).
Proof. intros l. exists []. now rewrite app_nil_r. Qed.

Lemma sends_only_print (line : string) : sends_only P (print_stderr line).
Proof. intros l. exists []. now rewrite app_nil_r. Qed.

Lemma sends_only_write (path body : string) : sends_only P (write_file path body).
Proof. intros l. exists []. now rewrite app_nil_r. Qed.

Lemma sends_only_send (w : World) (req : Request) :
  P req -> sends_only P (send w req).
Proof.
  intros HP l. exists [req]. unfold send.
  destruct (reply w (length (sent l))); simpl; now repeat constructor.
Qed.

Lemma sends_only_fromstring (w : World) (r : Response) :
  sends_only P (fromstring w r).
Proof.
  intros l. exists []. unfold fromstring.
  destruct (reply w (pred (length (sent l)))); simpl; now rewrite app_nil_r.
Qed.

Lemma sends_only_bind {A B} (m : M A) (k : A -> M B) :
  sends_only P m -> (forall a, sends_only P (k a)) -> sends_only P (bind m k).
Proof.
  intros Hm Hk l. destruct (Hm l) as (r1 & E1 & F1). unfold bind.
  destruct (m l) as [[a|e|] l1]; simpl in E1.
  - destruct (Hk a l1) as (r2 & E2 & F2). exists (r1 ++ r2).
    rewrite E2, E1, app_assoc. split; [reflexivity|].
    apply Forall_app. now split.
  - now exists r1.
  - now exists r1.
Qed.

(** What [k] does comes after what [m] did. *)
Lemma sent_bind_prefix {A B} (m : M A) (k : A -> M B) (l : Log) :
  (forall a, sends_only P (k a)) ->
  exists rest, sent (snd (bind m k l)) = sent (snd (m l)) ++ rest.
Proof.
  intros Hk. unfold bind. destruct (m l) as [[a|e|] l1]; simpl.
  - destruct (Hk a l1) as (rest & E & _). now exists rest.
  - exists []. now rewrite app_nil_r.
  - exists []. now rewrite app_nil_r.
Qed.

End SendsOnly.

(** One step of a proof that a piece of the script only adds requests. *)
Ltac sends_only_step :=
  first
    [ apply sends_only_ret | apply sends_only_raise | apply sends_only_diverge
    | apply sends_only_print | apply sends_only_write
    | apply sends_only_send | apply sends_only_fromstring
    | apply sends_only_bind; [|intros ?]
    | match goal with
      | |- sends_only _ (if ?b then _ else _) => destruct b
      | |- sends_only _ (match ?x with _ => _ end) => destruct x
      | |- sends_only _ (let '(_, _) := ?x in _) => destruct x
      end ].

Section RequestsOfTheRun.

Variable urljoin : string -> string -> string.
Variable w : World.

(** What holds of a request however the session that sends it was used. *)
Variable P : Request -> Prop.
Hypothesis P_get : forall u t,
  P {| method := "GET"; req_url := u; data := None; req_timeout := t;
       stream := false; req_auth := auth new_Session |}.
Hypothesis P_post : forall u d t s,
  P {| method := "POST"; req_url := u; data := Some d; req_timeout := t;
       stream := s; req_auth := auth new_Session |}.

Lemma sends_only_login (a : Args) : sends_only P (login urljoin w a new_Session).
Proof.
  unfold login, session_get, session_post.
  repeat sends_only_step; auto.
Qed.

Lemma sends_only_load_export_page (a : Args) (tree : Element) :
  sends_only P (load_export_page urljoin w a new_Session tree).
Proof.
  unfold load_export_page, session_get.
  repeat sends_only_step; auto.
Qed.

Lemma sends_only_submit_export (a : Args) (ex : list string) (tree : Element) :
  sends_only P (submit_export urljoin w a new_Session ex tree).
Proof.
  unfold submit_export, session_post.
  repeat sends_only_step; auto.
Qed.

Lemma sends_only_output_filename (a : Args) (pf : string) (r : Response) :
  sends_only P (output_filename w a pf r).
Proof. unfold output_filename. repeat sends_only_step. Qed.

Lemma sends_only_avoid_collision (fuel : nat) (a : Args) (out : string) :
  sends_only P (avoid_collision w fuel a out).
Proof. unfold avoid_collision. repeat sends_only_step. Qed.

Lemma sends_only_save (a : Args) (r : Response) (out : string) :
  sends_only P (save w a r out).
Proof. unfold save. repeat sends_only_step. Qed.

Lemma sends_only_after_login (fuel : nat) (a : Args) (tree : Element) :
  sends_only P
    (export_tree <- load_export_page urljoin w a new_Session tree ;;
     file_response <- submit_export urljoin w a new_Session (excluded a)
                                    export_tree ;;
     out_filename <- output_filename w a (effective_prefix_format a)
                                     file_response ;;
     out_filename <- avoid_collision w fuel a out_filename ;;
     save w a file_response out_filename ;;;
     ret out_filename).
Proof.
  apply sends_only_bind; [apply sends_only_load_export_page | intros export_tree].
  apply sends_only_bind; [apply sends_only_submit_export | intros file_response].
  apply sends_only_bind; [apply sends_only_output_filename | intros out].
  apply sends_only_bind; [apply sends_only_avoid_collision | intros out'].
  apply sends_only_bind; [apply sends_only_save | intros _].
  apply sends_only_ret.
Qed.

Lemma sends_only_download_sql_backup (fuel : nat) (a : Args) :
  sends_only P (download_sql_backup urljoin w fuel a).
Proof.
  unfold download_sql_backup.
  apply sends_only_bind; [apply sends_only_login | intros tree].
  apply sends_only_after_login.
Qed.

End RequestsOfTheRun.

(** ** Runs that cannot be told apart from outside *)











Section PasswordBlind.

Variable urljoin : string -> string -> string.
Variable w : World.
Variable a : Args.
Variable p : string.








End PasswordBlind.

(** ** The failures of a run *)

Section Failures.

Variable urljoin : string -> string -> string.
Variable w : World.




















End Failures.

(* ================================================================== *)
(** * Forms, hidden inputs and dicts *)
(* ================================================================== *)

Lemma filter_none {A} (f : A -> bool) (l : list A) :
  (forall x, In x l -> f x = false) -> filter f l = [].
Proof.
  induction l as [|x l IH]; intros H; simpl; [reflexivity|].
  rewrite (H x (or_introl eq_refl)). apply IH. intros y Hy. apply H. now right.
Qed.

Lemma in_descendant_or_self_child (t : string) (a : list (string * string))
      (cs : list Element) (c x : Element) :
  In c cs -> In x (XPath.descendant_or_self c) ->
  In x (XPath.descendant_or_self (Elem t a cs)).
Proof.
  intros Hc Hx. cbn [XPath.descendant_or_self]. right.
  apply in_flat_map. now exists c.
Qed.

(** Without a matching form there is no action to read... *)
Lemma form_action_none (name v : string) (tree : Element) :
  (forall e, In e (XPath.descendant_or_self tree) ->
             XPath.is_form_with name v e = false) ->
  XPath.form_action name v tree = [].
Proof.
  intros H. unfold XPath.form_action. now rewrite filter_none.
Qed.

(** ... and no hidden input to collect. *)
Lemma hidden_inputs_under_none (name v : string) (tree : Element) :
  (forall e, In e (XPath.descendant_or_self tree) ->
             XPath.is_form_with name v e = false) ->
  XPath.hidden_inputs_under name v false tree = [].
Proof.
  induction tree as [t a cs IH] using Element_rect_children. intros H.
  cbn [XPath.hidden_inputs_under andb app].
  rewrite (H (Elem t a cs)) by (cbn [XPath.descendant_or_self]; now left).
  cbn [orb].
  assert (Hcs : forall c x, In c cs -> In x (XPath.descendant_or_self c) ->
                            XPath.is_form_with name v x = false).
  { intros c x Hc Hx. apply H. now apply in_descendant_or_self_child with c. }
  clear H. induction cs as [|c cs IHcs]; [reflexivity|].
  inversion IH as [|? ? Hc Hrest]; subst. cbn [flat_map].
  rewrite Hc by (intros x Hx; apply (Hcs c x); [now left | exact Hx]).
  apply IHcs; [exact Hrest|].
  intros c' x Hc' Hx. apply (Hcs c' x); [now right | exact Hx].
Qed.

Lemma dict_get_set_same {V} (k : string) (v : V) (d : PyDict.t V) :
  PyDict.get k (PyDict.set k v d) = Some v.
Proof.
  induction d as [|[k' v'] d IH]; simpl.
  - now rewrite String.eqb_refl.
  - destruct (String.eqb_spec k' k) as [->|Hne]; simpl.
    + now rewrite String.eqb_refl.
    + apply String.eqb_neq in Hne. now rewrite Hne.
Qed.

Lemma dict_get_set_other {V} (k k' : string) (v : V) (d : PyDict.t V) :
  k' <> k -> PyDict.get k (PyDict.set k' v d) = PyDict.get k d.
Proof.
  intros Hne. induction d as [|[k0 v0] d IH]; simpl.
  - apply String.eqb_neq in Hne. now rewrite Hne.
  - destruct (String.eqb_spec k0 k') as [->|Hne0]; simpl.
    + apply String.eqb_neq in Hne. now rewrite Hne.
    + destruct (String.eqb k0 k); [reflexivity | exact IH].
Qed.

(** After the loop over the hidden inputs, a key holds the value of the
    last hidden input of that name, or what it held before the loop. *)
Lemma get_fold_add_hidden_input (n : string) (hs : list Element) :
  forall d : FormData,
    PyDict.get n (fold_left add_hidden_input hs d)
    = match last_hidden_value n hs with
      | Some v => Some (Str v)
      | None => PyDict.get n d
      end.
Proof.
  induction hs as [|h hs IH]; intros d; [reflexivity|].
  cbn [fold_left last_hidden_value]. rewrite IH.
  destruct (last_hidden_value n hs) as [v|]; [reflexivity|].
  unfold add_hidden_input.
  destruct (get_attr h "name") as [[|c m]|]; try reflexivity.
  destruct (String.eqb_spec (String c m) n) as [<-|Hne].
  - apply dict_get_set_same.
  - now apply dict_get_set_other.
Qed.

Lemma last_hidden_value_none (n : string) (hs : list Element) :
  (forall h, In h hs -> get_attr h "name" <> Some n) ->
  last_hidden_value n hs = None.
Proof.
  induction hs as [|h hs IH]; intros H; [reflexivity|].
  cbn [last_hidden_value]. rewrite IH by (intros x Hx; apply H; now right).
  specialize (H h (or_introl eq_refl)).
  destruct (get_attr h "name") as [[|c m]|]; try reflexivity.
  destruct (String.eqb_spec (String c m) n) as [<-|Hne]; [|reflexivity].
  now contradiction H.
Qed.

Section HiddenInputs.

Variables name v : string.

Lemma hidden_inputs_under_sound (e : Element) :
  forall inside h,
    In h (XPath.hidden_inputs_under name v inside e) ->
    XPath.is_hidden_input h = true
    /\ ((inside = true /\ In h (XPath.descendant_or_self e))
        \/ exists f, In f (XPath.descendant_or_self e)
                     /\ XPath.is_form_with name v f = true
                     /\ In h (XPath.descendants f)).
Proof.
  induction e as [t a cs IH] using Element_rect_children.
  intros inside h Hin. cbn [XPath.hidden_inputs_under] in Hin.
  apply in_app_or in Hin as [Hin | Hin].
  - destruct inside; cbn [andb] in Hin; [|destruct Hin].
    destruct (XPath.is_hidden_input (Elem t a cs)) eqn:Hh; [|destruct Hin].
    destruct Hin as [<- | []]. split; [exact Hh|]. left.
    split; [reflexivity|]. cbn [XPath.descendant_or_self]. now left.
  - apply in_flat_map in Hin as (c & Hc & Hin).
    rewrite Forall_forall in IH.
    destruct (IH c Hc _ _ Hin) as (Hh & [(Hinside & Hdos) | (f & Hf & Hm & Hd)]).
    + split; [exact Hh|].
      destruct inside.
      * left. split; [reflexivity|].
        now apply in_descendant_or_self_child with c.
      * cbn [orb] in Hinside. right. exists (Elem t a cs).
        split; [cbn [XPath.descendant_or_self]; now left|].
        split; [exact Hinside|].
        unfold XPath.descendants. cbn [children].
        apply in_flat_map. now exists c.
    + split; [exact Hh|]. right. exists f.
      split; [now apply in_descendant_or_self_child with c|]. now split.
Qed.

Lemma hidden_inputs_under_inside (e : Element) :
  forall h,
    In h (XPath.descendant_or_self e) ->
    XPath.is_hidden_input h = true ->
    In h (XPath.hidden_inputs_under name v true e).
Proof.
  induction e as [t a cs IH] using Element_rect_children.
  intros h Hin Hh. cbn [XPath.descendant_or_self] in Hin.
  cbn [XPath.hidden_inputs_under andb orb]. apply in_or_app.
  destruct Hin as [<- | Hin].
  - left. rewrite Hh. now left.
  - right. apply in_flat_map in Hin as (c & Hc & Hin).
    rewrite Forall_forall in IH.
    apply in_flat_map. exists c. split; [exact Hc|]. now apply IH.
Qed.

Lemma hidden_inputs_under_complete (e : Element) :
  forall inside f h,
    In f (XPath.descendant_or_self e) ->
    XPath.is_form_with name v f = true ->
    In h (XPath.descendants f) ->
    XPath.is_hidden_input h = true ->
    In h (XPath.hidden_inputs_under name v inside e).
Proof.
  induction e as [t a cs IH] using Element_rect_children.
  intros inside f h Hf Hm Hd Hh. cbn [XPath.descendant_or_self] in Hf.
  cbn [XPath.hidden_inputs_under]. apply in_or_app. right.
  rewrite Forall_forall in IH.
  destruct Hf as [<- | Hf].
  - rewrite Hm, orb_true_r. unfold XPath.descendants in Hd.
    cbn [children] in Hd. apply in_flat_map in Hd as (c & Hc & Hd).
    apply in_flat_map. exists c. split; [exact Hc|].
    now apply hidden_inputs_under_inside.
  - apply in_flat_map in Hf as (c & Hc & Hf).
    apply in_flat_map. exists c. split; [exact Hc|].
    now apply IH with f.
Qed.

End HiddenInputs.

Lemma last_hidden_value_inv (n v : string) (hs : list Element) :
  last_hidden_value n hs = Some v ->
  n <> EmptyString
  /\ exists h, In h hs /\ get_attr h "name" = Some n
               /\ v = get_attr_default h "value" EmptyString.
Proof.
  induction hs as [|x hs IH]; [discriminate|].
  cbn [last_hidden_value].
  destruct (last_hidden_value n hs) as [v'|].
  - intros [= ->]. destruct (IH eq_refl) as (Hne & h & Hin & Hname & Hv).
    split; [exact Hne|]. exists h. split; [now right | now split].
  - destruct (get_attr x "name") as [[|c m]|] eqn:Hname; try discriminate.
    destruct (String.eqb_spec (String c m) n) as [<-|Hne]; [|discriminate].
    intros [= <-]. split; [discriminate|]. exists x.
    split; [now left | now split].
Qed.

Lemma is_form_with_iff (name v : string) (f : Element) :
  XPath.is_form_with name v f = true
  <-> tag f = "form" /\ get_attr f name = Some v.
Proof.
  unfold XPath.is_form_with, attr_is.
  rewrite andb_true_iff, String.eqb_eq.
  destruct (get_attr f name) as [x|].
  - rewrite String.eqb_eq. split; intros [? H]; split; congruence.
  - split; intros [? H]; discriminate.
Qed.

Lemma is_hidden_input_iff (h : Element) :
  XPath.is_hidden_input h = true
  <-> tag h = "input" /\ get_attr h "type" = Some "hidden".
Proof.
  unfold XPath.is_hidden_input, attr_is.
  rewrite andb_true_iff, String.eqb_eq.
  destruct (get_attr h "type") as [x|].
  - rewrite String.eqb_eq. split; intros [? H]; split; congruence.
  - split; intros [? H]; discriminate.
Qed.

(* ================================================================== *)
(** * File names *)
(* ================================================================== *)

(** [splitext] cuts its argument in two. *)
Lemma splitext_app (p : string) :
  fst (PyPath.splitext p) +++ snd (PyPath.splitext p) = p.
Proof.
  unfold PyPath.splitext.
  destruct (PyStr.rfind "." p >? PyStr.rfind "/" p)%Z;
    [|apply str_app_nil_r].
  destruct (PyPath.splitext_loop _ _ _); [apply take_drop | apply str_app_nil_r].
Qed.

Lemma of_nat_inj (n m : nat) : PyStr.of_nat n = PyStr.of_nat m -> n = m.
Proof.
  unfold PyStr.of_nat. intros H. apply DecimalNat.Unsigned.to_uint_inj.
  assert (E : Some (Nat.to_uint n) = Some (Nat.to_uint m))
    by (rewrite <- !NilEmpty.usu; now rewrite H).
  now injection E.
Qed.

Section Alternates.

Variable w : World.
Variables base ext : string.

Lemma alternate_inj (n m : nat) :
  alternate base ext n = alternate base ext m -> n = m.
Proof.
  unfold alternate. intros H.
  apply str_app_inv_head, str_app_inv_head, str_app_inv_tail in H.
  now apply of_nat_inj.
Qed.


(** What the loop returns is the first free name from [n] on. *)
Lemma alternate_loop_sound (fuel : nat) : forall n p,
  alternate_loop w fuel base ext n = Some p ->
  exists N, n <= N < n + fuel /\ p = alternate base ext N
            /\ isfile w p = false
            /\ forall k, n <= k < N -> isfile w (alternate base ext k) = true.
Proof.
  induction fuel as [|fuel IH]; intros n p H; [discriminate|].
  cbn [alternate_loop] in H.
  destruct (isfile w (alternate base ext n)) eqn:E; cbn [negb] in H.
  - apply IH in H as (N & HN & -> & Hfree & Htaken). exists N.
    repeat split; try lia; try assumption.
    intros k Hk. destruct (Nat.eq_dec k n) as [->|Hne]; [exact E|].
    apply Htaken. lia.
  - injection H as <-. exists n. repeat split; try lia; assumption.
Qed.

(** When the loop runs out of fuel, every name it tried is taken. *)
Lemma alternate_loop_none (fuel : nat) : forall n,
  alternate_loop w fuel base ext n = None ->
  forall k, n <= k < n + fuel -> isfile w (alternate base ext k) = true.
Proof.
  induction fuel as [|fuel IH]; intros n H k Hk; [lia|].
  cbn [alternate_loop] in H.
  destruct (isfile w (alternate base ext n)) eqn:E; cbn [negb] in H;
    [|discriminate].
  destruct (Nat.eq_dec k n) as [->|Hne]; [exact E|].
  apply (IH (n + 1) H). lia.
Qed.

(** With finitely many files, the loop ends: more rounds than there are
    files always reach a free name. *)
Lemma alternate_loop_finite (files : list string) (fuel : nat) :
  (forall p, isfile w p = true -> In p files) ->
  length files < fuel ->
  alternate_loop w fuel base ext 1 <> None.
Proof.
  intros Hfiles Hfuel Hnone.
  pose (names := map (alternate base ext) (seq 1 fuel)).
  assert (Hnd : NoDup names).
  { apply Injective_map_NoDup; [|apply seq_NoDup].
    intros n m. apply alternate_inj. }
  assert (Hincl : incl names files).
  { intros p Hp. apply in_map_iff in Hp as (k & <- & Hk).
    apply in_seq in Hk. apply Hfiles.
    apply (alternate_loop_none fuel 1 Hnone). lia. }
  pose proof (NoDup_incl_length Hnd Hincl) as Hlen.
  unfold names in Hlen. rewrite length_map, length_seq in Hlen. lia.
Qed.

End Alternates.

(* ================================================================== *)
(** * The export request *)
(* ================================================================== *)

Lemma mem_iff (x : string) (l : list string) :
  PyStr.mem x l = true <-> In x l.
Proof.
  unfold PyStr.mem. rewrite existsb_exists. split.
  - intros (y & Hy & E). apply String.eqb_eq in E. now subst.
  - intros H. exists x. split; [exact H | apply String.eqb_refl].
Qed.

Lemma last_hidden_value_some (n : string) (hs : list Element) (h : Element) :
  In h hs -> get_attr h "name" = Some n -> n <> EmptyString ->
  last_hidden_value n hs <> None.
Proof.
  intros Hin Hname Hne. induction hs as [|x hs IH]; [destruct Hin|].
  cbn [last_hidden_value].
  destruct (last_hidden_value n hs) as [v|] eqn:E; [discriminate|].
  destruct Hin as [->|Hin]; [|now contradiction (IH Hin)].
  rewrite Hname. destruct n as [|c m]; [contradiction|].
  rewrite String.eqb_refl. discriminate.
Qed.

(** What lines 101-123 do on an export page that has the export form:
    at most the warning, then exactly one request. *)
Lemma submit_export_sends (urljoin : string -> string -> string) (w : World)
      (a : Args) (session : Session) (ex : list string)
      (export_tree : Element) (l : Log) (action : string) (more : list string) :
  XPath.form_action "name" "dump" export_tree = action :: more ->
  submit_export urljoin w a session ex export_tree l
  = (match reply w (length (sent l)) with
     | Replied r => Ret r
     | Failed msg => Raise (RequestException msg)
     | Unparsable status _ => Ret (unparsed_response status)
     end,
     {| sent := sent l
                ++ [ {| method := "POST"; req_url := urljoin (url a) action;
                        data := Some (export_form_data a export_tree
                                        (filter (fun db => negb (PyStr.mem db ex))
                                           (XPath.db_select_option_value export_tree)));
                        req_timeout := timeout a; stream := true;
                        req_auth := auth session |} ];
        stderr := stderr l
                  ++ match filter (fun db => negb (PyStr.mem db ex))
                                  (XPath.db_select_option_value export_tree) with
                     | [] => [no_databases_warning
                                (XPath.db_select_option_value export_tree)]
                     | _ :: _ => []
                     end;
        written := written l |}).
Proof.
  intros Hform. unfold submit_export. rewrite Hform.
  unfold bind, session_post, send, print_stderr, ret.
  destruct (filter _ (XPath.db_select_option_value export_tree)) as [|db dbs];
    cbn [sent stderr written];
    destruct (reply w (length (sent l))); rewrite ?app_nil_r;
    destruct l; reflexivity.
Qed.

(* ================================================================== *)
(** * From the reply to the file *)
(* ================================================================== *)

(** Once the export form is submitted, what is left of the run is lines
    124-153. *)
Lemma download_after_submitted (urljoin : string -> string -> string)
      (w : World) (fuel : nat) (a : Args) (l l1 : Log) (r : Response) :
  submitted urljoin w a l r l1 ->
  download_sql_backup urljoin w fuel a l
  = (out_filename <- output_filename w a (effective_prefix_format a) r ;;
     out_filename <- avoid_collision w fuel a out_filename ;;
     save w a r out_filename ;;;
     ret out_filename) l1.
Proof.
  intros (export_tree & l3 & (tree & l2 & Hlogin & Hpage) & Hsubmit).
  unfold download_sql_backup.
  rewrite (bind_Ret _ _ _ _ _ Hlogin), (bind_Ret _ _ _ _ _ Hpage).
  now rewrite (bind_Ret _ _ _ _ _ Hsubmit).
Qed.


(** Lines 124-153 send nothing, and only add to stderr. *)
Lemma store_keeps_sent (w : World) (fuel : nat) (a : Args) (pf : string)
      (r : Response) (l : Log) :
  exists later,
    sent (snd ((out_filename <- output_filename w a pf r ;;
                out_filename <- avoid_collision w fuel a out_filename ;;
                save w a r out_filename ;;;
                ret out_filename) l)) = sent l
    /\ stderr (snd ((out_filename <- output_filename w a pf r ;;
                     out_filename <- avoid_collision w fuel a out_filename ;;
                     save w a r out_filename ;;;
                     ret out_filename) l)) = stderr l ++ later.
Proof.
  unfold output_filename.
  destruct (Re.re_match _ _) as [g|];
    [|exists []; cbn; now rewrite app_nil_r].
  unfold bind at 1. unfold ret at 1.
  set (out := PyPath.join _ _). clearbody out.
  unfold avoid_collision, save, bind, print_stderr, write_file, ret, raise,
    diverge.
  destruct (isfile w out && negb (overwrite_existing a)).
  - destruct (PyPath.splitext out) as [base ext].
    exists [exists_notice out].
    destruct (alternate_loop w fuel base ext 1) as [alt|]; [|now split].
    destruct (negb (dry_run a)); [|now split].
    destruct (open_wb w alt); [now split|].
    destruct (transfer w alt); now split.
  - exists []. rewrite app_nil_r.
    destruct (negb (dry_run a)); [|now split].
    destruct (open_wb w out); [now split|].
    destruct (transfer w out); now split.
Qed.



(* ================================================================== *)
(** * Stem and extension *)
(* ================================================================== *)

Lemma rfind_from_absent (c : ascii) (s : string) : forall i found,
  all_chars (Re.not_char c) s = true ->
  PyStr.rfind_from c s i found = found.
Proof.
  induction s as [|x s IH]; intros i found H; [reflexivity|].
  cbn [all_chars] in H. apply andb_prop in H as [Hx Hs].
  unfold Re.not_char in Hx. apply negb_true_iff in Hx.
  cbn [PyStr.rfind_from]. rewrite Hx. now apply IH.
Qed.

Lemma rfind_from_last (c : ascii) (a b : string) : forall i found,
  all_chars (Re.not_char c) b = true ->
  PyStr.rfind_from c (a +++ String c b) i found
  = (i + Z.of_nat (String.length a))%Z.
Proof.
  induction a as [|x a IH]; intros i found Hb;
    cbn [String.append PyStr.rfind_from String.length].
  - rewrite Ascii.eqb_refl, rfind_from_absent by exact Hb. lia.
  - rewrite IH by exact Hb. lia.
Qed.

Lemma rfind_from_app_absent (c : ascii) (a b : string) : forall i found,
  all_chars (Re.not_char c) b = true ->
  PyStr.rfind_from c (a +++ b) i found = PyStr.rfind_from c a i found.
Proof.
  induction a as [|x a IH]; intros i found Hb;
    cbn [String.append PyStr.rfind_from].
  - now apply rfind_from_absent.
  - now apply IH.
Qed.

Lemma rfind_from_bound (c : ascii) (s : string) : forall i found,
  (found < i + Z.of_nat (String.length s))%Z ->
  (PyStr.rfind_from c s i found < i + Z.of_nat (String.length s))%Z.
Proof.
  induction s as [|x s IH]; intros i found H;
    cbn [PyStr.rfind_from String.length] in *; [exact H|].
  specialize (IH (i + 1)%Z (if Ascii.eqb x c then i else found)).
  destruct (Ascii.eqb x c); lia.
Qed.

(** The last slash of a path stands just before its last component. *)
Lemma sep_index (dir comp : string) :
  directory_part dir ->
  all_chars (Re.not_char "/") comp = true ->
  PyStr.rfind "/" (dir +++ comp) = (Z.of_nat (String.length dir) - 1)%Z.
Proof.
  intros [-> | (d & ->)] Hcomp; unfold PyStr.rfind.
  - cbn [String.append String.length]. now rewrite rfind_from_absent.
  - rewrite str_app_assoc. cbn [String.append].
    rewrite rfind_from_last by exact Hcomp.
    rewrite str_length_app. cbn [String.length]. lia.
Qed.

Lemma dot_index_none (dir comp : string) :
  all_chars (Re.not_char ".") comp = true ->
  (PyStr.rfind "." (dir +++ comp) < Z.of_nat (String.length dir))%Z.
Proof.
  intros Hcomp. unfold PyStr.rfind.
  rewrite rfind_from_app_absent by exact Hcomp.
  apply (rfind_from_bound "." dir 0 (-1)). lia.
Qed.

Lemma dot_index_some (dir pre e : string) :
  all_chars (Re.not_char ".") e = true ->
  PyStr.rfind "." ((dir +++ pre) +++ String "." e)
  = Z.of_nat (String.length dir + String.length pre).
Proof.
  intros He. unfold PyStr.rfind. rewrite rfind_from_last by exact He.
  rewrite str_length_app. lia.
Qed.

Lemma get_app_length (a : string) (x : ascii) (b : string) :
  String.get (String.length a) (a +++ String x b) = Some x.
Proof. induction a as [|y a IH]; [reflexivity | exact IH]. Qed.

(** The loop over the leading dots finds a character other than the dot
    exactly when there is one before the last dot. *)
Lemma splitext_loop_spec (pre rest : string) : forall dir,
  PyPath.splitext_loop (dir +++ pre +++ rest) (String.length pre)
                       (Z.of_nat (String.length dir))
  = negb (all_chars (Ascii.eqb ".") pre).
Proof.
  induction pre as [|x pre IH]; intros dir; [reflexivity|].
  cbn [String.length PyPath.splitext_loop all_chars].
  unfold PyPath.char_at, PyStr.char_at.
  destruct (Z.ltb_spec (Z.of_nat (String.length dir)) 0) as [Hneg|_]; [lia|].
  rewrite Nat2Z.id. cbn [String.append]. rewrite get_app_length.
  destruct (Ascii.eqb_spec "." x) as [<-|Hne].
  - cbn [String.eqb Ascii.eqb Bool.eqb negb andb].
    specialize (IH (dir +++ ".")).
    rewrite str_app_assoc, str_length_app in IH. cbn [String.append String.length] in IH.
    replace (Z.of_nat (String.length dir) + 1)%Z
      with (Z.of_nat (String.length dir + 1)) by lia.
    exact IH.
  - cbn [andb negb]. destruct (String.eqb_spec (String x EmptyString) ".")
      as [[= E]|_]; [now contradiction Hne | reflexivity].
Qed.

Lemma take_app_length (a b : string) :
  PyStr.take (String.length a) (a +++ b) = a.
Proof.
  induction a as [|x a IH]; cbn; [now destruct b | now rewrite IH].
Qed.

Lemma drop_app_length (a b : string) :
  PyStr.drop (String.length a) (a +++ b) = b.
Proof. induction a as [|x a IH]; cbn; [now destruct b | exact IH]. Qed.

Lemma not_slash_dot : Re.not_char "/" "." = true.
Proof. reflexivity. Qed.

Lemma dots_have_no_slash (dots : string) :
  all_chars (Ascii.eqb ".") dots = true ->
  all_chars (Re.not_char "/") dots = true.
Proof.
  induction dots as [|x dots IH]; [reflexivity|]. cbn [all_chars].
  intros H. apply andb_prop in H as [Hx Hd]. apply Ascii.eqb_eq in Hx as <-.
  now rewrite IH.
Qed.

(** A text of dots is the same read from either end. *)
Lemma dots_snoc (dots : string) :
  all_chars (Ascii.eqb ".") dots = true ->
  String "." dots = dots +++ ".".
Proof.
  induction dots as [|x dots IH]; [reflexivity|]. cbn [all_chars].
  intros H. apply andb_prop in H as [Hx Hd]. apply Ascii.eqb_eq in Hx as <-.
  cbn [String.append]. now rewrite <- IH.
Qed.

(** [splitext] cuts at the last dot of the last component... *)
Lemma splitext_extension (dir name e : string) :
  directory_part dir ->
  all_chars (Re.not_char "/") name = true ->
  all_chars (Ascii.eqb ".") name = false ->
  all_chars (Re.not_char ".") e = true ->
  all_chars (Re.not_char "/") e = true ->
  PyPath.splitext ((dir +++ name) +++ String "." e)
  = (dir +++ name, String "." e).
Proof.
  intros Hdir Hname Hsome He Hes. unfold PyPath.splitext.
  rewrite dot_index_some by exact He.
  replace (PyStr.rfind "/" ((dir +++ name) +++ String "." e))
    with (Z.of_nat (String.length dir) - 1)%Z.
  2:{ rewrite str_app_assoc. symmetry. apply sep_index; [exact Hdir|].
      rewrite all_chars_app, Hname. cbn [all_chars]. now rewrite Hes. }
  destruct (Z.gtb_spec (Z.of_nat (String.length dir + String.length name))
                       (Z.of_nat (String.length dir) - 1)) as [_|Hle]; [|lia].
  replace (Z.of_nat (String.length dir) - 1 + 1)%Z
    with (Z.of_nat (String.length dir)) by lia.
  replace (Z.to_nat (Z.of_nat (String.length dir + String.length name)
                     - Z.of_nat (String.length dir)))
    with (String.length name) by lia.
  rewrite str_app_assoc, splitext_loop_spec, Hsome. cbn [negb].
  rewrite Nat2Z.id, <- str_length_app, <- str_app_assoc.
  now rewrite take_app_length, drop_app_length.
Qed.

(** ... and not at all when the component has no dot, or dots in front
    only. *)
Lemma splitext_no_extension (dir dots rest : string) :
  directory_part dir ->
  all_chars (Ascii.eqb ".") dots = true ->
  all_chars (Re.not_char ".") rest = true ->
  all_chars (Re.not_char "/") rest = true ->
  PyPath.splitext (dir +++ dots +++ rest) = (dir +++ dots +++ rest, EmptyString).
Proof.
  intros Hdir Hdots Hrest Hrests. unfold PyPath.splitext.
  rewrite sep_index;
    [|exact Hdir
     |now rewrite all_chars_app, (dots_have_no_slash dots Hdots), Hrests].
  destruct dots as [|x dots].
  - cbn [String.append].
    pose proof (dot_index_none dir rest Hrest) as Hlt.
    destruct (Z.gtb_spec (PyStr.rfind "." (dir +++ rest))
                         (Z.of_nat (String.length dir) - 1)); [lia|reflexivity].
  - cbn [all_chars] in Hdots. apply andb_prop in Hdots as [Hx Hdots].
    apply Ascii.eqb_eq in Hx as <-. rewrite (dots_snoc dots Hdots).
    replace (dir +++ (dots +++ ".") +++ rest)
      with ((dir +++ dots) +++ String "." rest)
      by (now rewrite !str_app_assoc).
    rewrite dot_index_some by exact Hrest.
    destruct (Z.gtb_spec (Z.of_nat (String.length dir + String.length dots))
                         (Z.of_nat (String.length dir) - 1)) as [_|Hle]; [|lia].
    replace (Z.of_nat (String.length dir) - 1 + 1)%Z
      with (Z.of_nat (String.length dir)) by lia.
    replace (Z.to_nat (Z.of_nat (String.length dir + String.length dots)
                       - Z.of_nat (String.length dir)))
      with (String.length dots) by lia.
    rewrite str_app_assoc, splitext_loop_spec, Hdots. reflexivity.
Qed.

(** The stem and the extension of a name are what [splitext] returns. *)
Lemma stem_and_extension_splitext (f stem ext : string) :
  stem_and_extension f stem ext -> PyPath.splitext f = (stem, ext).
Proof.
  intros [Hf [(dir & name & e & -> & -> & Hdir & Hname & Hsome & He & Hes)
             | (-> & dir & dots & rest & Hcut & Hdir & Hdots & Hrest & Hrests)]].
  - rewrite Hf. now apply splitext_extension.
  - rewrite str_app_nil_r in Hf. subst stem. rewrite Hcut.
    now apply splitext_no_extension.
Qed.

(** Every text is a directory part and a component without a slash. *)
Lemma last_component (f : string) :
  exists dir comp,
    f = dir +++ comp /\ directory_part dir
    /\ all_chars (Re.not_char "/") comp = true.
Proof.
  induction f as [|x f (dir & comp & -> & Hdir & Hcomp)].
  - exists EmptyString, EmptyString. repeat split. now left.
  - destruct Hdir as [-> | (d & ->)].
    + destruct (Ascii.eqb_spec x "/") as [->|Hne].
      * exists "/", comp. repeat split; [|exact Hcomp].
        right. now exists EmptyString.
      * exists EmptyString, (String x comp). repeat split; [now left|].
        cbn [String.append all_chars]. rewrite Hcomp.
        unfold Re.not_char. apply Ascii.eqb_neq in Hne. now rewrite Hne.
    + exists (String x d +++ "/"), comp. repeat split; [|exact Hcomp].
      right. now exists (String x d).
Qed.

(** Every text is dots and a text that does not begin with a dot. *)
Lemma leading_dots (s : string) :
  exists dots rest,
    s = dots +++ rest /\ all_chars (Ascii.eqb ".") dots = true
    /\ (rest = EmptyString
        \/ exists x r, rest = String x r /\ x <> "."%char).
Proof.
  induction s as [|x s (dots & rest & -> & Hdots & Hrest)].
  - exists EmptyString, EmptyString. repeat split. now left.
  - destruct (Ascii.eqb_spec "." x) as [<-|Hne].
    + exists (String "." dots), rest. repeat split; [|exact Hrest].
      cbn [all_chars]. now rewrite Hdots.
    + exists EmptyString, (String x (dots +++ rest)). repeat split.
      right. exists x, (dots +++ rest). split; [reflexivity|]. congruence.
Qed.

(** A text has no [c], or a last one. *)
Lemma last_occurrence (c : ascii) (s : string) :
  all_chars (Re.not_char c) s = true
  \/ exists a b, s = a +++ String c b /\ all_chars (Re.not_char c) b = true.
Proof.
  induction s as [|x s [Hs | (a & b & -> & Hb)]].
  - now left.
  - destruct (Ascii.eqb_spec x c) as [->|Hne].
    + right. now exists EmptyString, s.
    + left. cbn [all_chars]. rewrite Hs. unfold Re.not_char.
      apply Ascii.eqb_neq in Hne. now rewrite Hne.
  - right. now exists (String x a), b.
Qed.

(** Every name has a stem and an extension. *)
Lemma stem_and_extension_exists (f : string) :
  exists stem ext, stem_and_extension f stem ext.
Proof.
  destruct (last_component f) as (dir & comp & -> & Hdir & Hcomp).
  destruct (leading_dots comp) as (dots & rest & -> & Hdots & Hrest).
  rewrite all_chars_app in Hcomp. apply andb_prop in Hcomp as [_ Hrests].
  destruct (last_occurrence "." rest) as [Hnone | (body & e & -> & He)].
  - exists (dir +++ dots +++ rest), EmptyString.
    split; [now rewrite str_app_nil_r|]. right. split; [reflexivity|].
    now exists dir, dots, rest.
  - rewrite all_chars_app in Hrests. apply andb_prop in Hrests as [Hbody Hes].
    cbn [all_chars] in Hes. apply andb_prop in Hes as [_ Hes].
    exists (dir +++ dots +++ body), (String "." e).
    split; [now rewrite !str_app_assoc|]. left.
    exists dir, (dots +++ body), e. repeat split; try assumption.
    + now rewrite all_chars_app, (dots_have_no_slash dots Hdots), Hbody.
    + rewrite all_chars_app, Hdots. cbn [andb].
      destruct Hrest as [Hrest | (x & r & Hrest & Hx)].
      * destruct body; discriminate.
      * destruct body as [|y body]; cbn [String.append] in Hrest.
        -- injection Hrest as <- _. now contradiction Hx.
        -- injection Hrest as -> _. cbn [all_chars].
           apply not_eq_sym, Ascii.eqb_neq in Hx. now rewrite Hx.
Qed.

(** [splitext] returns the stem and the extension, and nothing else is
    a stem and an extension of the name. *)
Lemma splitext_stem_and_extension (f : string) :
  stem_and_extension f (fst (PyPath.splitext f)) (snd (PyPath.splitext f))
  /\ forall stem ext, stem_and_extension f stem ext ->
                      stem = fst (PyPath.splitext f)
                      /\ ext = snd (PyPath.splitext f).
Proof.
  split.
  - destruct (stem_and_extension_exists f) as (stem & ext & H).
    now rewrite (stem_and_extension_splitext f stem ext H).
  - intros stem ext H. now rewrite (stem_and_extension_splitext f stem ext H).
Qed.

(* ================================================================== *)
(** * A run, case by case *)
(* ================================================================== *)

Lemma login_unfolded (urljoin : string -> string -> string) (w : World)
      (a : Args) :
  login urljoin w a new_Session empty_Log
  = match reply w 0 with
    | Failed msg =>
        (Raise (RequestException msg), log_of [login_page_request a] [])
    | Unparsable status msg =>
        (Raise (unparsed_page_error "Failed to load the login page."
                                    status msg),
         log_of [login_page_request a] [])
    | Replied r0 =>
        if (status_code r0 =? 200)%Z then
          match reply w 1 with
          | Failed msg =>
              (Raise (RequestException msg),
               log_of [login_page_request a;
                       login_request urljoin a (html_tree r0)] [])
          | Unparsable status msg =>
              (Raise (unparsed_page_error
                        "Could not log in. Please check your credentials."
                        status msg),
               log_of [login_page_request a;
                       login_request urljoin a (html_tree r0)] [])
          | Replied r1 =>
              if (status_code r1 =? 200)%Z
                 && is_login_successful (html_tree r1) then
                (Ret (html_tree r1),
                 log_of [login_page_request a;
                         login_request urljoin a (html_tree r0)] [])
              else
                (Raise (ValueError
                          "Could not log in. Please check your credentials."),
                 log_of [login_page_request a;
                         login_request urljoin a (html_tree r0)] [])
          end
        else
          (Raise (ValueError "Failed to load the login page."),
           log_of [login_page_request a] [])
    end.
Proof.
  unfold login, session_get, session_post, bind, send, fromstring,
    unparsed_page_error.
  cbn [sent empty_Log length app Nat.pred].
  destruct (reply w 0) as [r0|m0|s0 m0] eqn:E0; [|reflexivity|].
  - destruct (status_code r0 =? 200)%Z; [|reflexivity].
    cbn [negb sent app length Nat.pred]. rewrite E0.
    cbn [sent app length Nat.pred].
    destruct (reply w 1) as [r1|m1|s1 m1] eqn:E1; [|reflexivity|].
    + destruct (status_code r1 =? 200)%Z; [|reflexivity].
      cbn [negb sent app length Nat.pred]. rewrite E1.
      destruct (is_login_successful (html_tree r1)); reflexivity.
    + cbn [status_code unparsed_response].
      destruct (s1 =? 200)%Z; [|reflexivity].
      cbn [negb sent app length Nat.pred]. now rewrite E1.
  - cbn [status_code unparsed_response]. destruct (s0 =? 200)%Z; [|reflexivity].
    cbn [negb sent app length Nat.pred]. now rewrite E0.
Qed.

(** [l] with one more request sent. *)
Lemma load_export_page_unfolded (urljoin : string -> string -> string)
      (w : World) (a : Args) (tree : Element) (l : Log) :
  load_export_page urljoin w a new_Session tree l
  = match export_href tree with
    | None => (Raise (ValueError "Could not find export URL."), l)
    | Some href =>
        (match reply w (length (sent l)) with
         | Failed msg => Raise (RequestException msg)
         | Unparsable _ msg => Raise (ParserError msg)
         | Replied r => Ret (html_tree r)
         end,
         {| sent := sent l ++ [export_page_request urljoin a href];
            stderr := stderr l; written := written l |})
    end.
Proof.
  assert (Hlast : forall req : Request,
             pred (length (sent l ++ [req])) = length (sent l)).
  { intros req. rewrite length_app. cbn [length]. lia. }
  unfold load_export_page, export_href, session_get, bind, send, fromstring,
    ret, raise.
  destruct (XPath.topmenu_a_href_containing "server_export.php" tree)
    as [|h hs].
  - destruct (XPath.topmenu_a_href_containing
                "index.php?route=/server/export" tree) as [|h hs];
      [reflexivity|].
    destruct (reply w (length (sent l))) eqn:E; cbn [sent];
      rewrite ?Hlast, ?E; reflexivity.
  - destruct (reply w (length (sent l))) eqn:E; cbn [sent];
      rewrite ?Hlast, ?E; reflexivity.
Qed.

(** Without the export form, lines 101-109 print the warning, if any,
    and fail on the index. *)
Lemma submit_export_without_form (urljoin : string -> string -> string)
      (w : World) (a : Args) (session : Session) (ex : list string)
      (export_tree : Element) (l : Log) :
  XPath.form_action "name" "dump" export_tree = [] ->
  submit_export urljoin w a session ex export_tree l
  = (Raise (IndexError "list index out of range"),
     {| sent := sent l;
        stderr := stderr l
                  ++ match filter (fun db => negb (PyStr.mem db ex))
                                  (XPath.db_select_option_value export_tree) with
                     | [] => [no_databases_warning
                                (XPath.db_select_option_value export_tree)]
                     | _ :: _ => []
                     end;
        written := written l |}).
Proof.
  intros Hform. unfold submit_export. rewrite Hform.
  unfold bind, print_stderr, ret, raise.
  destruct (filter _ (XPath.db_select_option_value export_tree));
    cbn [sent stderr written]; rewrite ?app_nil_r; destruct l; reflexivity.
Qed.

(** A reply to the export that has no headers names no file. *)
Lemma finish_unparsed (w : World) (fuel : nat) (a : Args) (status : Z)
      (l : Log) :
  finish w fuel a (unparsed_response status) l
  = (Raise (filename_error EmptyString), l).
Proof. reflexivity. Qed.

(** The run from the empty log, split on what the server replies. *)
Lemma run_unfolded (urljoin : string -> string -> string) (w : World)
      (fuel : nat) (a : Args) :
  download_sql_backup urljoin w fuel a empty_Log
  = match reply w 0 with
    | Failed msg =>
        (Raise (RequestException msg), log_of [login_page_request a] [])
    | Unparsable status msg =>
        (Raise (unparsed_page_error "Failed to load the login page."
                                    status msg),
         log_of [login_page_request a] [])
    | Replied r0 =>
        if (status_code r0 =? 200)%Z then
          match reply w 1 with
          | Failed msg =>
              (Raise (RequestException msg),
               log_of [login_page_request a;
                       login_request urljoin a (html_tree r0)] [])
          | Unparsable status msg =>
              (Raise (unparsed_page_error
                        "Could not log in. Please check your credentials."
                        status msg),
               log_of [login_page_request a;
                       login_request urljoin a (html_tree r0)] [])
          | Replied r1 =>
              if (status_code r1 =? 200)%Z
                 && is_login_successful (html_tree r1) then
                match export_href (html_tree r1) with
                | None =>
                    (Raise (ValueError "Could not find export URL."),
                     log_of [login_page_request a;
                             login_request urljoin a (html_tree r0)] [])
                | Some href =>
                    match reply w 2 with
                    | Failed msg =>
                        (Raise (RequestException msg),
                         log_of [login_page_request a;
                                 login_request urljoin a (html_tree r0);
                                 export_page_request urljoin a href] [])
                    | Unparsable _ msg =>
                        (Raise (ParserError msg),
                         log_of [login_page_request a;
                                 login_request urljoin a (html_tree r0);
                                 export_page_request urljoin a href] [])
                    | Replied r2 =>
                        match XPath.form_action "name" "dump" (html_tree r2) with
                        | [] =>
                            (Raise (IndexError "list index out of range"),
                             log_of [login_page_request a;
                                     login_request urljoin a (html_tree r0);
                                     export_page_request urljoin a href]
                                    (warning_lines a (html_tree r2)))
                        | action :: _ =>
                            match reply w 3 with
                            | Failed msg =>
                                (Raise (RequestException msg),
                                 log_of [login_page_request a;
                                         login_request urljoin a (html_tree r0);
                                         export_page_request urljoin a href;
                                         dump_request urljoin a (html_tree r2)
                                                      action]
                                        (warning_lines a (html_tree r2)))
                            | Unparsable _ _ =>
                                (Raise (filename_error EmptyString),
                                 log_of [login_page_request a;
                                         login_request urljoin a (html_tree r0);
                                         export_page_request urljoin a href;
                                         dump_request urljoin a (html_tree r2)
                                                      action]
                                        (warning_lines a (html_tree r2)))
                            | Replied r3 =>
                                finish w fuel a r3
                                  (log_of [login_page_request a;
                                           login_request urljoin a (html_tree r0);
                                           export_page_request urljoin a href;
                                           dump_request urljoin a (html_tree r2)
                                                        action]
                                          (warning_lines a (html_tree r2)))
                            end
                        end
                    end
                end
              else
                (Raise (ValueError
                          "Could not log in. Please check your credentials."),
                 log_of [login_page_request a;
                         login_request urljoin a (html_tree r0)] [])
          end
        else
          (Raise (ValueError "Failed to load the login page."),
           log_of [login_page_request a] [])
    end.
Proof.
  unfold download_sql_backup. unfold bind at 1. rewrite login_unfolded.
  destruct (reply w 0) as [r0|m0|s0 m0]; [|reflexivity|reflexivity].
  destruct (status_code r0 =? 200)%Z; [|reflexivity].
  destruct (reply w 1) as [r1|m1|s1 m1]; [|reflexivity|reflexivity].
  destruct ((status_code r1 =? 200)%Z && is_login_successful (html_tree r1));
    [|reflexivity].
  unfold bind at 1. rewrite load_export_page_unfolded.
  destruct (export_href (html_tree r1)) as [href|]; [|reflexivity].
  cbn [log_of sent length app stderr written].
  destruct (reply w 2) as [r2|m2|s2 m2]; [|reflexivity|reflexivity].
  unfold bind at 1.
  destruct (XPath.form_action "name" "dump" (html_tree r2)) as [|action more]
    eqn:Hform.
  - rewrite (submit_export_without_form _ _ _ _ _ _ _ Hform). reflexivity.
  - rewrite (submit_export_sends _ _ _ _ _ _ _ _ _ Hform).
    cbn [sent length app stderr written].
    destruct (reply w 3) as [r3|m3|s3 m3]; reflexivity.
Qed.

(** Lines 124-153 are the naming of the output and then the storing. *)
Lemma finish_unfolded (w : World) (fuel : nat) (a : Args) (r : Response)
      (l : Log) :
  finish w fuel a r l
  = match name_output w fuel a r l with
    | (Ret p, l1) =>
        if dry_run a then (Ret p, l1)
        else match open_wb w p with
             | Some msg => (Raise (OSError msg), l1)
             | None =>
                 match transfer w p with
                 | Complete =>
                     (Ret p, {| sent := sent l1; stderr := stderr l1;
                                written := written l1 ++ [(p, raw r)] |})
                 | StreamBroken count msg =>
                     (Raise (RequestException msg),
                      {| sent := sent l1; stderr := stderr l1;
                         written := written l1
                                    ++ [(p, PyStr.take count (raw r))] |})
                 | WriteFailed count msg =>
                     (Raise (OSError msg),
                      {| sent := sent l1; stderr := stderr l1;
                         written := written l1
                                    ++ [(p, PyStr.take count (raw r))] |})
                 end
             end
    | (Raise e, l1) => (Raise e, l1)
    | (Diverges, l1) => (Diverges, l1)
    end.
Proof.
  unfold finish, name_output. unfold bind at 1 4.
  destruct (output_filename w a (effective_prefix_format a) r l)
    as [[out|e|] l0]; try reflexivity.
  unfold bind at 1.
  destruct (avoid_collision w fuel a out l0) as [[p|e|] l1]; try reflexivity.
  unfold save, bind, write_file, ret, raise.
  destruct (dry_run a); [reflexivity|]. cbn [negb].
  destruct (open_wb w p); [reflexivity|].
  destruct (transfer w p); reflexivity.
Qed.

(** Lines 124-153 send nothing. *)
Lemma finish_keeps_sent (w : World) (fuel : nat) (a : Args) (r : Response)
      (l : Log) :
  sent (snd (finish w fuel a r l)) = sent l.
Proof.
  destruct (store_keeps_sent w fuel a (effective_prefix_format a) r l)
    as (later & Hs & _).
  exact Hs.
Qed.

(** Naming the output sends nothing, writes nothing, and fails with the
    error of line 127 or not at all. *)
Lemma name_output_log (w : World) (fuel : nat) (a : Args) (r : Response)
      (l : Log) :
  sent (snd (name_output w fuel a r l)) = sent l
  /\ written (snd (name_output w fuel a r l)) = written l
  /\ (exists later, stderr (snd (name_output w fuel a r l)) = stderr l ++ later)
  /\ forall e, fst (name_output w fuel a r l) = Raise e ->
               e = filename_error
                     (headers_get r "Content-Disposition" EmptyString).
Proof.
  unfold name_output, output_filename.
  destruct (Re.re_match _ _) as [g|].
  - unfold bind at 1. unfold ret at 1.
    set (out := PyPath.join _ _). clearbody out.
    unfold avoid_collision, bind, print_stderr, ret, diverge.
    destruct (isfile w out && negb (overwrite_existing a)).
    + destruct (PyPath.splitext out) as [base ext].
      destruct (alternate_loop w fuel base ext 1); cbn;
        repeat split; try (now eexists); intros; discriminate.
    + cbn. repeat split; try (exists []; now rewrite app_nil_r).
      intros; discriminate.
  - cbn. repeat split; try (exists []; now rewrite app_nil_r).
    now intros e [= <-].
Qed.

(** The cases of [run_unfolded], named. *)
Ltac run_split w :=
  let r0 := fresh "r0" in let r1 := fresh "r1" in
  let r2 := fresh "r2" in let r3 := fresh "r3" in
  let E0 := fresh "E0" in let E1 := fresh "E1" in
  let E2 := fresh "E2" in let E3 := fresh "E3" in
  let S0 := fresh "S0" in let S1 := fresh "S1" in
  let href := fresh "href" in let Hhref := fresh "Hhref" in
  let action := fresh "action" in let more := fresh "more" in
  let Hform := fresh "Hform" in
  destruct (reply w 0) as [r0|?|? ?] eqn:E0;
  [ destruct (status_code r0 =? 200)%Z eqn:S0;
    [ destruct (reply w 1) as [r1|?|? ?] eqn:E1;
      [ destruct ((status_code r1 =? 200)%Z
                  && is_login_successful (html_tree r1)) eqn:S1;
        [ destruct (export_href (html_tree r1)) as [href|] eqn:Hhref;
          [ destruct (reply w 2) as [r2|?|? ?] eqn:E2;
            [ destruct (XPath.form_action "name" "dump" (html_tree r2))
                as [|action more] eqn:Hform;
              [ | destruct (reply w 3) as [r3|?|? ?] eqn:E3 ]
            | | ]
          | ]
        | ]
      | | ]
    | ]
  | | ].

Ltac run_cases w := rewrite run_unfolded; run_split w.

(** A leaf of [run_cases] with the reply to the export: the requests are
    those sent before lines 124-153. *)
Ltac finish_sent w fuel a r3 :=
  rewrite finish_unfolded;
  match goal with
  | |- context [name_output w fuel a r3 ?l] =>
      let Hsent := fresh "Hsent" in
      let Hwritten := fresh "Hwritten" in
      let Herr := fresh "Herr" in
      let Hexn := fresh "Hexn" in
      destruct (name_output_log w fuel a r3 l)
        as (Hsent & Hwritten & Herr & Hexn);
      let p := fresh "p" in
      let e := fresh "e" in
      let l1 := fresh "l1" in
      destruct (name_output w fuel a r3 l) as [[p|e|] l1];
      cbn [snd fst] in Hsent, Hwritten, Herr, Hexn;
      try (destruct (dry_run a) eqn:Hdry;
           [|destruct (open_wb w p) eqn:Hopen;
             [|destruct (transfer w p) eqn:Htransfer]]);
      cbn [snd fst sent written stderr];
      rewrite ?Hsent, ?Hwritten
  end.

(* ================================================================== *)
(** * The login page without its form *)
(* ================================================================== *)

Lemma login_without_form (urljoin : string -> string -> string) (w : World)
      (a : Args) (r0 : Response) :
  reply w 0 = Replied r0 ->
  status_code r0 = 200%Z ->
  no_login_form (html_tree r0) ->
  sent (snd (login urljoin w a new_Session empty_Log))
  = [ {| method := "GET"; req_url := url a; data := None;
         req_timeout := timeout a; stream := false; req_auth := None |};
      {| method := "POST"; req_url := urljoin (url a) (url a);
         data := Some [("pma_username", Str (user a));
                       ("pma_password", Str (password a))];
         req_timeout := timeout a; stream := false; req_auth := None |} ].
Proof.
  intros Hreply Hstatus Hnone. rewrite login_unfolded, Hreply, Hstatus.
  cbn [Z.eqb Pos.eqb].
  assert (Hreq : login_request urljoin a (html_tree r0)
                 = {| method := "POST"; req_url := urljoin (url a) (url a);
                      data := Some [("pma_username", Str (user a));
                                    ("pma_password", Str (password a))];
                      req_timeout := timeout a; stream := false;
                      req_auth := None |}).
  { unfold login_request, login_action, login_form_data.
    rewrite (form_action_none _ _ _ Hnone).
    unfold XPath.form_hidden_inputs.
    now rewrite (hidden_inputs_under_none _ _ _ Hnone). }
  destruct (reply w 1) as [r1|msg|status msg];
    [destruct ((status_code r1 =? 200)%Z
               && is_login_successful (html_tree r1))| |];
    cbn [snd log_of sent]; now rewrite Hreq.
Qed.

(** C1, as the script has it.  When the login page holds no login form
    the run does not stop there: after the GET of the login page its next
    request is a POST of the user name and the password, and of nothing
    else, to the address the login url resolves to against itself. *)
Theorem missing_login_form_posts_to_login_url
        (urljoin : string -> string -> string) (w : World)
        (fuel : nat) (a : Args) (r0 : Response) :
  reply w 0 = Replied r0 ->
  status_code r0 = 200%Z ->
  no_login_form (html_tree r0) ->
  exists later,
    sent (snd (download_sql_backup urljoin w fuel a empty_Log))
    = {| method := "GET"; req_url := url a; data := None;
         req_timeout := timeout a; stream := false; req_auth := None |}
      :: {| method := "POST"; req_url := urljoin (url a) (url a);
            data := Some [("pma_username", Str (user a));
                          ("pma_password", Str (password a))];
            req_timeout := timeout a; stream := false; req_auth := None |}
      :: later.
Proof.
  intros Hreply Hstatus Hnone. unfold download_sql_backup.
  destruct (sent_bind_prefix (fun _ => True)
              (login urljoin w a new_Session)
              (fun tree =>
                 export_tree <- load_export_page urljoin w a new_Session tree ;;
                 file_response <- submit_export urljoin w a new_Session
                                                (excluded a) export_tree ;;
                 out_filename <- output_filename w a (effective_prefix_format a)
                                                 file_response ;;
                 out_filename <- avoid_collision w fuel a out_filename ;;
                 save w a file_response out_filename ;;;
                 ret out_filename)
              empty_Log) as (later & E).
  { intros tree. apply sends_only_after_login; intros; exact I. }
  exists later. cbv zeta. rewrite E.
  now rewrite (login_without_form urljoin w a r0 Hreply Hstatus Hnone).
Qed.

Lemma bare_page_has_no_login_form : no_login_form Console.bare_page.
Proof.
  intros e He. cbn in He.
  repeat (destruct He as [<-|He]; [reflexivity|]). destruct He.
Qed.

(** The theorem above at the console whose login page lost its form. *)
Lemma missing_login_form_posts_to_login_url_witness :
  exists later,
    sent (snd (download_sql_backup
                 Console.urljoin (Console.world Console.formless_replies [])
                 1 Console.args empty_Log))
    = {| method := "GET"; req_url := "http://db.example/pma/"; data := None;
         req_timeout := 60; stream := false; req_auth := None |}
      :: {| method := "POST";
            req_url := Console.urljoin "http://db.example/pma/"
                                       "http://db.example/pma/";
            data := Some [("pma_username", Str "backup");
                          ("pma_password", Str "s3cret")];
            req_timeout := 60; stream := false; req_auth := None |}
      :: later.
Proof.
  apply (missing_login_form_posts_to_login_url
           Console.urljoin (Console.world Console.formless_replies [])
           1 Console.args
           {| status_code := 200; html_tree := Console.bare_page;
              headers := []; raw := EmptyString |}).
  - reflexivity.
  - reflexivity.
  - exact bare_page_has_no_login_form.
Defined.

(** C1, as the specification has it, fails: this login page has no login
    form, and the run neither fails nor holds its POST back; the second
    request carries the password. *)
Lemma missing_login_form_run_does_not_fail :
  no_login_form Console.bare_page
  /\ reply (Console.world Console.formless_replies []) 0
     = Console.html_reply 200 Console.bare_page
  /\ fst (download_sql_backup
            Console.urljoin (Console.world Console.formless_replies [])
            1 Console.args empty_Log)
     = Ret "/srv/dumps/shop_logs.sql"
  /\ nth_error
       (sent (snd (download_sql_backup
                     Console.urljoin (Console.world Console.formless_replies [])
                     1 Console.args empty_Log))) 1
     = Some {| method := "POST"; req_url := "http://db.example/pma/";
               data := Some [("pma_username", Str "backup");
                             ("pma_password", Str "s3cret")];
               req_timeout := 60; stream := false; req_auth := None |}.
Proof.
  split; [exact bare_page_has_no_login_form|].
  split; [reflexivity|]. split; vm_compute; reflexivity.
Qed.

(* ================================================================== *)
(** * Basic authentication *)
(* ================================================================== *)

Lemma requests_carry_no_credentials
      (urljoin : string -> string -> string) (w : World)
      (fuel : nat) (a : Args) :
  Forall (fun req => req_auth req = None)
         (sent (snd (download_sql_backup urljoin w fuel a empty_Log))).
Proof.
  destruct (sends_only_download_sql_backup urljoin w
              (fun req => req_auth req = None)
              (fun _ _ => eq_refl) (fun _ _ _ _ => eq_refl)
              fuel a empty_Log) as (rest & E & F).
  rewrite E. exact F.
Qed.

(** C2.  The session is made without credentials and [http_auth] is read
    nowhere: whatever the arguments, no request of a run carries
    basic-auth credentials.  So in the run with [http_auth] set to
    [operator:hunter2]: four requests, none with credentials. *)
Theorem http_auth_is_never_attached :
  (forall urljoin w fuel a,
      Forall (fun req => req_auth req = None)
             (sent (snd (download_sql_backup urljoin w fuel a empty_Log))))
  /\ http_auth Console.args_with_http_auth = Some "operator:hunter2"
  /\ map req_auth
         (sent (snd (download_sql_backup
                       Console.urljoin (Console.world Console.good_replies [])
                       1 Console.args_with_http_auth empty_Log)))
     = [None; None; None; None].
Proof.
  split; [exact requests_carry_no_credentials|].
  split; vm_compute; reflexivity.
Qed.

(* ================================================================== *)
(** * Status codes *)
(* ================================================================== *)

(** The login page is refused unless its status is 200, and nothing is
    posted then. *)
Lemma login_page_status_checked (urljoin : string -> string -> string)
      (w : World) (fuel : nat) (a : Args) (r0 : Response) :
  reply w 0 = Replied r0 ->
  status_code r0 <> 200%Z ->
  download_sql_backup urljoin w fuel a empty_Log
  = (Raise (ValueError "Failed to load the login page."),
     {| sent := [ {| method := "GET"; req_url := url a; data := None;
                     req_timeout := timeout a; stream := false;
                     req_auth := None |} ];
        stderr := []; written := [] |}).
Proof.
  intros Hreply Hstatus. rewrite run_unfolded, Hreply.
  apply Z.eqb_neq in Hstatus. now rewrite Hstatus.
Qed.

(** The reply to the login is refused unless its status is 200. *)
Lemma login_reply_status_checked (urljoin : string -> string -> string)
      (w : World) (fuel : nat) (a : Args) (r0 r1 : Response) :
  reply w 0 = Replied r0 -> status_code r0 = 200%Z ->
  reply w 1 = Replied r1 -> status_code r1 <> 200%Z ->
  fst (download_sql_backup urljoin w fuel a empty_Log)
  = Raise (ValueError "Could not log in. Please check your credentials.")
  /\ length (sent (snd (download_sql_backup urljoin w fuel a empty_Log))) = 2.
Proof.
  intros Hr0 Hs0 Hr1 Hs1. rewrite run_unfolded, Hr0, Hs0, Hr1.
  apply Z.eqb_neq in Hs1. rewrite Hs1. split; reflexivity.
Qed.

(** C5.  The status of the reply to the request for the export page is
    read nowhere.  Answered with status 500 and the export page in the body,
    the run carries on as with status 200 and stores the dump.  Answered
    with status 404 and a page without the export form, it prints the
    warning about the databases and fails at line 109, on the index. *)
Theorem export_page_status_is_not_checked :
  Console.failing_export_replies 2
  = Console.html_reply 500 Console.export_page
  /\ download_sql_backup
       Console.urljoin (Console.world Console.failing_export_replies [])
       1 Console.args empty_Log
     = download_sql_backup
         Console.urljoin (Console.world Console.good_replies [])
         1 Console.args empty_Log
  /\ fst (download_sql_backup
            Console.urljoin (Console.world Console.failing_export_replies [])
            1 Console.args empty_Log)
     = Ret "/srv/dumps/shop_logs.sql"
  /\ Console.missing_export_replies 2
     = Console.html_reply 404 Console.bare_page
  /\ fst (download_sql_backup
            Console.urljoin (Console.world Console.missing_export_replies [])
            1 Console.args empty_Log)
     = Raise (IndexError "list index out of range")
  /\ stderr (snd (download_sql_backup
                    Console.urljoin
                    (Console.world Console.missing_export_replies [])
                    1 Console.args empty_Log))
     = [no_databases_warning []].
Proof. repeat split; vm_compute; reflexivity. Qed.

(* ================================================================== *)
(** * The password and the messages of a run *)
(* ================================================================== *)



(* ================================================================== *)
(** * The databases of the export request *)
(* ================================================================== *)




(** C10.  Take a hidden input of the export form: an [input] element of
    type [hidden] that lies, at any depth, inside a [form] element named
    [dump] of the export page, and that bears a name.  In the body of the
    export request the key of that name holds the value of such a hidden
    input, the last one of that name, whatever the script put under the key
    before: the selected databases, the compression, or one of the three
    fixed parameters.  A key that no hidden input of the form is named after
    keeps what the script put there.  And that body is the one the run
    posts. *)
Theorem hidden_inputs_override_fixed_parameters
        (a : Args) (export_tree : Element) (dbs_to_dump : list string)
        (f h : Element) (n : string) :
  In f (XPath.descendant_or_self export_tree) ->
  tag f = "form" -> get_attr f "name" = Some "dump" ->
  In h (XPath.descendants f) ->
  tag h = "input" -> get_attr h "type" = Some "hidden" ->
  get_attr h "name" = Some n -> n <> EmptyString ->
  (exists f' h',
      In f' (XPath.descendant_or_self export_tree)
      /\ tag f' = "form" /\ get_attr f' "name" = Some "dump"
      /\ In h' (XPath.descendants f')
      /\ tag h' = "input" /\ get_attr h' "type" = Some "hidden"
      /\ get_attr h' "name" = Some n
      /\ PyDict.get n (export_form_data a export_tree dbs_to_dump)
         = Some (Str (get_attr_default h' "value" EmptyString))
      /\ last_hidden_value
           n (XPath.form_hidden_inputs "name" "dump" export_tree)
         = Some (get_attr_default h' "value" EmptyString))
  /\ ((forall f' h',
         In f' (XPath.descendant_or_self export_tree) ->
         tag f' = "form" -> get_attr f' "name" = Some "dump" ->
         In h' (XPath.descendants f') ->
         tag h' = "input" -> get_attr h' "type" = Some "hidden" ->
         get_attr h' "name" = Some n ->
         get_attr_default h' "value" EmptyString
         = get_attr_default h "value" EmptyString) ->
      PyDict.get n (export_form_data a export_tree dbs_to_dump)
      = Some (Str (get_attr_default h "value" EmptyString)))
  /\ (forall n',
        (forall f' h',
            In f' (XPath.descendant_or_self export_tree) ->
            tag f' = "form" -> get_attr f' "name" = Some "dump" ->
            In h' (XPath.descendants f') ->
            tag h' = "input" -> get_attr h' "type" = Some "hidden" ->
            get_attr h' "name" <> Some n') ->
        PyDict.get n' (export_form_data a export_tree dbs_to_dump)
        = PyDict.get n' [("db_select[]", StrList dbs_to_dump);
                         ("compression", Str (compression a));
                         ("what", Str "sql");
                         ("filename_template", Str "@SERVER@");
                         ("sql_structure_or_data", Str "structure_and_data")])
  /\ (forall urljoin w session exclude_dbs l action more,
        XPath.form_action "name" "dump" export_tree = action :: more ->
        exists req,
          sent (snd (submit_export urljoin w a session exclude_dbs
                                   export_tree l))
          = sent l ++ [req]
          /\ data req
             = Some (export_form_data a export_tree
                       (filter (fun db => negb (PyStr.mem db exclude_dbs))
                               (XPath.db_select_option_value export_tree)))).
Proof.
  intros Hf Hft Hfn Hh Hht Hhy Hname Hne.
  assert (Hget : forall m,
     PyDict.get m (export_form_data a export_tree dbs_to_dump)
     = match last_hidden_value
               m (XPath.form_hidden_inputs "name" "dump" export_tree) with
       | Some v => Some (Str v)
       | None =>
           PyDict.get m [("db_select[]", StrList dbs_to_dump);
                         ("compression", Str (compression a));
                         ("what", Str "sql");
                         ("filename_template", Str "@SERVER@");
                         ("sql_structure_or_data", Str "structure_and_data")]
       end).
  { intros m. unfold export_form_data. now rewrite get_fold_add_hidden_input. }
  assert (Hcollected : forall f' h',
             In f' (XPath.descendant_or_self export_tree) ->
             tag f' = "form" -> get_attr f' "name" = Some "dump" ->
             In h' (XPath.descendants f') ->
             tag h' = "input" -> get_attr h' "type" = Some "hidden" ->
             In h' (XPath.form_hidden_inputs "name" "dump" export_tree)).
  { intros f' h' Hf' Hft' Hfn' Hh' Hht' Hhy'.
    apply hidden_inputs_under_complete with f'; try assumption.
    - apply is_form_with_iff. now split.
    - apply is_hidden_input_iff. now split. }
  assert (Hlast : exists f' h',
             In f' (XPath.descendant_or_self export_tree)
             /\ tag f' = "form" /\ get_attr f' "name" = Some "dump"
             /\ In h' (XPath.descendants f')
             /\ tag h' = "input" /\ get_attr h' "type" = Some "hidden"
             /\ get_attr h' "name" = Some n
             /\ last_hidden_value
                  n (XPath.form_hidden_inputs "name" "dump" export_tree)
                = Some (get_attr_default h' "value" EmptyString)).
  { pose proof (last_hidden_value_some
                  n _ h (Hcollected f h Hf Hft Hfn Hh Hht Hhy) Hname Hne)
      as Hsome.
    destruct (last_hidden_value n _) as [v|] eqn:E; [|contradiction].
    apply last_hidden_value_inv in E as (_ & h' & Hin & Hname' & ->).
    destruct (hidden_inputs_under_sound "name" "dump" export_tree false h' Hin)
      as (Hhid & [(Hfalse & _) | (f' & Hf' & Hm & Hd)]); [discriminate|].
    apply is_hidden_input_iff in Hhid as [Hht' Hhy'].
    apply is_form_with_iff in Hm as [Hft' Hfn'].
    exists f', h'. now repeat split. }
  split; [|split; [|split]].
  - destruct Hlast as (f' & h' & Hf' & Hft' & Hfn' & Hh' & Hht' & Hhy'
                       & Hname' & Hv).
    exists f', h'. repeat split; try assumption. now rewrite Hget, Hv.
  - intros Hsame.
    destruct Hlast as (f' & h' & Hf' & Hft' & Hfn' & Hh' & Hht' & Hhy'
                       & Hname' & Hv).
    rewrite Hget, Hv.
    now rewrite (Hsame f' h' Hf' Hft' Hfn' Hh' Hht' Hhy' Hname').
  - intros n' Hnone. rewrite Hget.
    rewrite last_hidden_value_none; [reflexivity|].
    intros h' Hin.
    destruct (hidden_inputs_under_sound "name" "dump" export_tree false h' Hin)
      as (Hhid & [(Hfalse & _) | (f' & Hf' & Hm & Hd)]); [discriminate|].
    apply is_hidden_input_iff in Hhid as [Hht' Hhy'].
    apply is_form_with_iff in Hm as [Hft' Hfn'].
    now apply (Hnone f' h').
  - intros urljoin w session exclude_dbs l action more Hform.
    rewrite (submit_export_sends urljoin w a session exclude_dbs export_tree l
               action more Hform).
    eexists. split; reflexivity.
Qed.

(** The theorem above at the export page whose form hides an input
    named [what] with the value [csv]: that is what goes out under [what],
    not [sql]. *)
Lemma hidden_inputs_override_fixed_parameters_witness :
  PyDict.get "what"
             (export_form_data Console.args Console.overriding_export_page
                               ["shop"; "logs"])
  = Some (Str "csv").
Proof.
  destruct (hidden_inputs_override_fixed_parameters
              Console.args Console.overriding_export_page ["shop"; "logs"]
              (Elem "form" [("name", "dump"); ("action", "export.php")]
                    [Console.input_hidden "db_select[]" "mysql";
                     Console.input_hidden "what" "csv";
                     Console.db_select ["shop"; "logs"]])
              (Console.input_hidden "what" "csv") "what")
    as ((f' & h' & _ & _ & _ & _ & _ & _ & _ & Hget & Hlast) & _).
  - cbn. auto.
  - reflexivity.
  - reflexivity.
  - cbn. auto.
  - reflexivity.
  - reflexivity.
  - reflexivity.
  - discriminate.
  - assert (E : last_hidden_value
                  "what"
                  (XPath.form_hidden_inputs "name" "dump"
                                            Console.overriding_export_page)
                = Some "csv") by reflexivity.
    rewrite E in Hlast. injection Hlast as Hv. rewrite <- Hv in Hget.
    exact Hget.
Defined.

(** Two runs against the console that turns the login down, with two
    passwords: the same error, the same message. *)
Lemma denied_login_message :
  fst (download_sql_backup
         Console.urljoin (Console.world Console.denying_replies [])
         1 Console.args empty_Log)
  = Raise (ValueError "Could not log in. Please check your credentials.")
  /\ fst (download_sql_backup
            Console.urljoin (Console.world Console.denying_replies [])
            1 (with_password Console.args "another") empty_Log)
     = Raise (ValueError "Could not log in. Please check your credentials.").
Proof. split; vm_compute; reflexivity. Qed.

(* ================================================================== *)
(** * The name the server suggests *)
(* ================================================================== *)




(* ================================================================== *)
(** * The name of the output file *)
(* ================================================================== *)

Lemma named_run_submitted :
  submitted Console.urljoin (Console.world Console.good_replies [])
            Console2.args_named empty_Log
            {| status_code := 200; html_tree := Elem "html" [] [];
               headers := [("Content-Disposition", Console.attachment)];
               raw := "-- dump" |}
            (snd (submit_export Console.urljoin
                    (Console.world Console.good_replies [])
                    Console2.args_named new_Session [] Console.export_page
                    (snd (load_export_page Console.urljoin
                            (Console.world Console.good_replies [])
                            Console2.args_named new_Session Console.home_page
                            (snd (login Console.urljoin
                                    (Console.world Console.good_replies [])
                                    Console2.args_named new_Session
                                    empty_Log)))))).
Proof.
  exists Console.export_page. eexists. split.
  - exists Console.home_page. eexists. split; vm_compute; reflexivity.
  - vm_compute. reflexivity.
Defined.

(** C8.  The name [f] the header suggests has one stem and one
    extension: the extension begins at the last dot of the last component of
    [f], provided a character other than the dot stands before that dot in
    the component, and is empty otherwise.  When the export form is
    submitted and the resulting path is not that of an existing file (or
    overwriting is asked for), the path of the output is the output
    directory joined with: the current UTC time in the given format, or in
    [%Y-%m-%d--%H-%M-%S-UTC_] when none or the empty one is given, if
    [prepend_date] is set, and nothing otherwise; then the basename given,
    or else the stem of [f]; then the extension of [f].  The run returns
    this path when it has nothing to store, or can open the file and copy
    the whole body into it. *)
Theorem resolved_filename_without_collision
        (urljoin : string -> string -> string) (w : World)
        (fuel : nat) (a : Args) (l l1 : Log) (file_response : Response)
        (f : string) :
  submitted urljoin w a l file_response l1 ->
  Re.re_match CONTENT_DISPOSITION_FILENAME_RE
    (headers_get file_response "Content-Disposition" EmptyString)
  = Some (Some f) ->
  exists stem ext,
    stem_and_extension f stem ext
    /\ (forall s e, stem_and_extension f s e -> s = stem /\ e = ext)
    /\ let path :=
         PyPath.join
           (output_directory a)
           ((if prepend_date a
             then utcnow_strftime w
                    match prefix_format a with
                    | Some (String c s) => String c s
                    | _ => "%Y-%m-%d--%H-%M-%S-UTC_"
                    end
             else EmptyString)
              +++ match basename a with
                  | Some b => b
                  | None => stem
                  end
              +++ ext) in
       (isfile w path = false \/ overwrite_existing a = true ->
        (out_filename <- output_filename w a (effective_prefix_format a)
                                         file_response ;;
         avoid_collision w fuel a out_filename) l1
        = (Ret path, l1)
        /\ (dry_run a = true
            \/ (open_wb w path = None /\ transfer w path = Complete) ->
            fst (download_sql_backup urljoin w fuel a l) = Ret path)).
Proof.
  intros Hsub Hmatch.
  destruct (splitext_stem_and_extension f) as [Hse Huniq].
  exists (fst (PyPath.splitext f)), (snd (PyPath.splitext f)).
  split; [exact Hse|]. split; [exact Huniq|].
  assert (Hfmt : effective_prefix_format a
                 = match prefix_format a with
                   | Some (String c s) => String c s
                   | _ => "%Y-%m-%d--%H-%M-%S-UTC_"
                   end).
  { unfold effective_prefix_format. now destruct (prefix_format a) as [[|c s]|]. }
  rewrite <- Hfmt.
  assert (Hname : match basename a with
                  | None => f
                  | Some b => b +++ snd (PyPath.splitext f)
                  end
                  = match basename a with
                    | Some b => b
                    | None => fst (PyPath.splitext f)
                    end +++ snd (PyPath.splitext f)).
  { destruct (basename a); [reflexivity | now rewrite splitext_app]. }
  set (path := PyPath.join (output_directory a) _).
  cbv zeta. intros Hfree.
  assert (Hout : output_filename w a (effective_prefix_format a) file_response l1
                 = (Ret path, l1)).
  { unfold output_filename. rewrite Hmatch. unfold path. rewrite <- Hname.
    destruct (prepend_date a); reflexivity. }
  assert (Hkeep : avoid_collision w fuel a path l1 = (Ret path, l1)).
  { unfold avoid_collision.
    destruct Hfree as [-> | ->]; [reflexivity|].
    now rewrite andb_false_r. }
  split.
  - now rewrite (bind_Ret _ _ _ _ _ Hout).
  - intros Hstore.
    rewrite (download_after_submitted urljoin w fuel a l l1 file_response Hsub).
    rewrite (bind_Ret _ _ _ _ _ Hout), (bind_Ret _ _ _ _ _ Hkeep).
    unfold bind, save, write_file, ret.
    destruct Hstore as [-> | [-> ->]]; [reflexivity|].
    destruct (negb (dry_run a)); reflexivity.
Qed.

(** The theorem above at a run against the console with the basename
    [backup] and the date prefix asked for, nothing in the output directory:
    the server suggests [shop_logs.sql], whose stem is [shop_logs] and whose
    extension is [.sql], and the file is the date, [backup], [.sql]. *)
Lemma resolved_filename_without_collision_witness :
  stem_and_extension "shop_logs.sql" "shop_logs" ".sql"
  /\ fst (download_sql_backup
            Console.urljoin (Console.world Console.good_replies [])
            1 Console2.args_named empty_Log)
     = Ret "/srv/dumps/2024-12-01--13-05-09-UTC_backup.sql".
Proof.
  assert (Hsplit : stem_and_extension "shop_logs.sql" "shop_logs" ".sql").
  { split; [reflexivity|]. left.
    exists EmptyString, "shop_logs", "sql".
    repeat split; try reflexivity. now left. }
  split; [exact Hsplit|].
  destruct (resolved_filename_without_collision
              Console.urljoin (Console.world Console.good_replies [])
              1 Console2.args_named empty_Log _ _ "shop_logs.sql"
              named_run_submitted eq_refl)
    as (stem & ext & _ & Huniq & Hpath).
  destruct (Huniq "shop_logs" ".sql" Hsplit) as [<- <-].
  apply Hpath.
  - left. reflexivity.
  - right. split; reflexivity.
Defined.

(* ================================================================== *)
(** * Names that are taken *)
(* ================================================================== *)



(* ================================================================== *)
(** * Requests in order *)
(* ================================================================== *)

(** X1.  The requests of a run, in the order they are sent: always the
    GET of the login page; then, only if that page came with status 200,
    the login built from it; then, only if the reply to the login came with
    status 200 and shows a marked link, the GET of the export link of its top
    menu; then, only if the export page has the export form, the export.
    There is no fifth request, and a run that returns has sent all four. *)
Theorem requests_follow_the_replies
        (urljoin : string -> string -> string) (w : World)
        (fuel : nat) (a : Args) :
  let s := sent (snd (download_sql_backup urljoin w fuel a empty_Log)) in
  nth_error s 0 = Some (login_page_request a)
  /\ (forall req, nth_error s 1 = Some req ->
        exists r0, reply w 0 = Replied r0 /\ status_code r0 = 200%Z
                   /\ req = login_request urljoin a (html_tree r0))
  /\ (forall req, nth_error s 2 = Some req ->
        exists r1 href,
          reply w 1 = Replied r1 /\ status_code r1 = 200%Z
          /\ is_login_successful (html_tree r1) = true
          /\ export_href (html_tree r1) = Some href
          /\ req = export_page_request urljoin a href)
  /\ (forall req, nth_error s 3 = Some req ->
        exists r2 action more,
          reply w 2 = Replied r2
          /\ XPath.form_action "name" "dump" (html_tree r2) = action :: more
          /\ req = dump_request urljoin a (html_tree r2) action)
  /\ length s <= 4
  /\ (forall p, fst (download_sql_backup urljoin w fuel a empty_Log) = Ret p ->
                length s = 4).
Proof.
  cbv zeta. run_cases w; rewrite ?finish_keeps_sent;
    cbn [snd fst log_of sent nth_error length];
    try (apply andb_prop in S1 as [S1 L1]);
    try (apply Z.eqb_eq in S0); try (apply Z.eqb_eq in S1);
    (split; [reflexivity|]);
    (split; [intros req Hreq; try discriminate; injection Hreq as <-; eauto|]);
    (split; [intros req Hreq; try discriminate; injection Hreq as <-;
             eauto 10|]);
    (split; [intros req Hreq; try discriminate; injection Hreq as <-;
             eauto 10|]);
    (split; [lia|]); intros q Hq; try discriminate; reflexivity.
Qed.

(* ================================================================== *)
(** * Failures on the way *)
(* ================================================================== *)

(** X2.  A request that fails in the transport is the last one of the
    run, which ends with the error of the transport: nothing is retried. *)
Theorem no_request_is_retried
        (urljoin : string -> string -> string) (w : World)
        (fuel : nat) (a : Args) :
  forall k msg,
    reply w k = Failed msg ->
    length (sent (snd (download_sql_backup urljoin w fuel a empty_Log))) <= S k
    /\ (length (sent (snd (download_sql_backup urljoin w fuel a empty_Log))) = S k ->
        fst (download_sql_backup urljoin w fuel a empty_Log)
        = Raise (RequestException msg)).
Proof.
  intros k msg Hk. run_cases w; try finish_sent w fuel a r3;
    cbn [snd fst log_of sent length];
    destruct k as [|[|[|[|k]]]]; try congruence;
    (split; [lia|]); intros Hlen; try lia; congruence.
Qed.

(** The theorem above where the server is gone after the login. *)
Lemma no_request_is_retried_witness :
  length (sent (snd (download_sql_backup
                       Console.urljoin
                       (Console.world
                          (Console.replies
                             (Console.html_reply 200 Console.login_page)
                             (Console.html_reply 200 Console.home_page)
                             (Failed "Connection refused")
                             (Failed "Connection refused")) [])
                       1 Console.args empty_Log))) <= 3.
Proof.
  exact (proj1 (no_request_is_retried
                  Console.urljoin
                  (Console.world
                     (Console.replies
                        (Console.html_reply 200 Console.login_page)
                        (Console.html_reply 200 Console.home_page)
                        (Failed "Connection refused")
                        (Failed "Connection refused")) [])
                  1 Console.args 2 "Connection refused" eq_refl)).
Defined.

(** X3.  When the reply to the login comes with another status than 200,
    or shows no marked link, the run ends with the error of the login
    having sent the request for the login page and the login, and nothing
    else: the export page is not asked for. *)
Theorem refused_login_ends_the_run
        (urljoin : string -> string -> string) (w : World)
        (fuel : nat) (a : Args) (r0 r1 : Response) :
  reply w 0 = Replied r0 -> status_code r0 = 200%Z ->
  reply w 1 = Replied r1 ->
  status_code r1 <> 200%Z \/ is_login_successful (html_tree r1) = false ->
  download_sql_backup urljoin w fuel a empty_Log
  = (Raise (ValueError "Could not log in. Please check your credentials."),
     {| sent := [login_page_request a; login_request urljoin a (html_tree r0)];
        stderr := []; written := [] |}).
Proof.
  intros E0 S0 E1 Hbad. rewrite run_unfolded, E0, S0, E1. cbn [Z.eqb Pos.eqb].
  destruct Hbad as [Hbad | Hbad].
  - apply Z.eqb_neq in Hbad. now rewrite Hbad.
  - now rewrite Hbad, andb_false_r.
Qed.

(** The theorem above at the console that turns the login down. *)
Lemma refused_login_ends_the_run_witness :
  download_sql_backup Console.urljoin
                      (Console.world Console.denying_replies [])
                      1 Console.args empty_Log
  = (Raise (ValueError "Could not log in. Please check your credentials."),
     {| sent := [login_page_request Console.args;
                 login_request Console.urljoin Console.args Console.login_page];
        stderr := []; written := [] |}).
Proof.
  apply (refused_login_ends_the_run
           Console.urljoin (Console.world Console.denying_replies [])
           1 Console.args
           {| status_code := 200; html_tree := Console.login_page;
              headers := []; raw := EmptyString |}
           {| status_code := 200; html_tree := Console.denied_page;
              headers := []; raw := EmptyString |});
    try reflexivity.
  right. reflexivity.
Defined.




(** X5.  On an export page without the export form the run prints the
    warning, when every database is left out, and then ends on the index
    of line 109, having sent three requests: nothing is exported. *)
Theorem missing_export_form_ends_the_run
        (urljoin : string -> string -> string) (w : World)
        (fuel : nat) (a : Args) (l0 l : Log) (export_tree : Element) :
  export_page_loaded urljoin w a l0 export_tree l ->
  XPath.form_action "name" "dump" export_tree = [] ->
  download_sql_backup urljoin w fuel a l0
  = (Raise (IndexError "list index out of range"),
     {| sent := sent l;
        stderr := stderr l ++ warning_lines a export_tree;
        written := written l |}).
Proof.
  intros (tree & l1 & Hlogin & Hpage) Hform. unfold download_sql_backup.
  rewrite (bind_Ret _ _ _ _ _ Hlogin), (bind_Ret _ _ _ _ _ Hpage).
  apply bind_Raise.
  now rewrite (submit_export_without_form _ _ _ _ _ _ _ Hform).
Qed.

Lemma formless_export_page_loaded :
  export_page_loaded
    Console.urljoin (Console.world Console2.formless_export_replies [])
    Console.args empty_Log Console2.formless_export_page
    (log_of [login_page_request Console.args;
             login_request Console.urljoin Console.args Console.login_page;
             export_page_request Console.urljoin Console.args
                                 "server_export.php?x=1"] []).
Proof.
  exists Console.home_page. eexists. split; vm_compute; reflexivity.
Defined.

(** The theorem above at the console whose export page has no form. *)
Lemma missing_export_form_ends_the_run_witness :
  fst (download_sql_backup
         Console.urljoin (Console.world Console2.formless_export_replies [])
         1 Console.args empty_Log)
  = Raise (IndexError "list index out of range").
Proof.
  rewrite (missing_export_form_ends_the_run
             Console.urljoin (Console.world Console2.formless_export_replies [])
             1 Console.args empty_Log _ _ formless_export_page_loaded eq_refl).
  reflexivity.
Defined.

(* ================================================================== *)
(** * The file, and the dry run *)
(* ================================================================== *)

(** X6.  A run that returns and is no dry run has written one file: at
    the path it returns, holding the body of the reply to the export, the
    fourth reply of the server.  A dry run writes nothing, however it
    ends. *)
Theorem stored_dump_is_the_reply_body
        (urljoin : string -> string -> string) (w : World)
        (fuel : nat) (a : Args) :
  (forall p,
      fst (download_sql_backup urljoin w fuel a empty_Log) = Ret p ->
      exists r3,
        reply w 3 = Replied r3
        /\ written (snd (download_sql_backup urljoin w fuel a empty_Log))
           = if dry_run a then [] else [(p, raw r3)])
  /\ (dry_run a = true ->
      written (snd (download_sql_backup urljoin w fuel a empty_Log)) = []).
Proof.
  run_cases w; try finish_sent w fuel a r3;
    cbn [snd fst log_of written app];
    (split; [intros q Hq; try discriminate
            | intros Hq; try reflexivity; try congruence]).
  - injection Hq as <-. exists r3. now split.
  - injection Hq as <-. exists r3. now split.
Qed.

Lemma dry_login_page_request (a : Args) (d : bool) :
  login_page_request (with_dry_run a d) = login_page_request a.
Proof. reflexivity. Qed.

Lemma dry_login_request (urljoin : string -> string -> string)
      (a : Args) (d : bool) (tree : Element) :
  login_request urljoin (with_dry_run a d) tree = login_request urljoin a tree.
Proof. reflexivity. Qed.

Lemma dry_export_page_request (urljoin : string -> string -> string)
      (a : Args) (d : bool) (href : string) :
  export_page_request urljoin (with_dry_run a d) href
  = export_page_request urljoin a href.
Proof. reflexivity. Qed.

Lemma dry_dump_request (urljoin : string -> string -> string)
      (a : Args) (d : bool) (tree : Element) (action : string) :
  dump_request urljoin (with_dry_run a d) tree action
  = dump_request urljoin a tree action.
Proof. reflexivity. Qed.

Lemma dry_warning_lines (a : Args) (d : bool) (tree : Element) :
  warning_lines (with_dry_run a d) tree = warning_lines a tree.
Proof. reflexivity. Qed.

Lemma dry_name_output (w : World) (fuel : nat) (a : Args) (d : bool)
      (r : Response) (l : Log) :
  name_output w fuel (with_dry_run a d) r l = name_output w fuel a r l.
Proof. reflexivity. Qed.

(** X7.  A dry run differs from the real one in the file alone: it sends
    the same requests, prints the same lines on stderr, writes nothing, and
    returns the path the real run returns.  The outcomes differ only where
    the real run fails at the file: it cannot open it, and writes nothing;
    or the copy into it breaks off, the stream breaking or a write failing,
    and the file keeps the beginning of the body.  The dry run returns the
    path all the same. *)
Theorem dry_run_differs_in_the_file_alone
        (urljoin : string -> string -> string) (w : World)
        (fuel : nat) (a : Args) :
  written (snd (download_sql_backup urljoin w fuel (with_dry_run a true)
                                    empty_Log)) = []
  /\ sent (snd (download_sql_backup urljoin w fuel (with_dry_run a true)
                                    empty_Log))
     = sent (snd (download_sql_backup urljoin w fuel (with_dry_run a false)
                                      empty_Log))
  /\ stderr (snd (download_sql_backup urljoin w fuel (with_dry_run a true)
                                      empty_Log))
     = stderr (snd (download_sql_backup urljoin w fuel (with_dry_run a false)
                                        empty_Log))
  /\ (forall p,
        fst (download_sql_backup urljoin w fuel (with_dry_run a false)
                                 empty_Log) = Ret p ->
        fst (download_sql_backup urljoin w fuel (with_dry_run a true)
                                 empty_Log) = Ret p)
  /\ (fst (download_sql_backup urljoin w fuel (with_dry_run a true) empty_Log)
      = fst (download_sql_backup urljoin w fuel (with_dry_run a false)
                                 empty_Log)
      \/ exists p,
           fst (download_sql_backup urljoin w fuel (with_dry_run a true)
                                    empty_Log) = Ret p
           /\ ((exists msg,
                  open_wb w p = Some msg
                  /\ download_sql_backup urljoin w fuel (with_dry_run a false)
                                         empty_Log
                     = (Raise (OSError msg),
                        snd (download_sql_backup
                               urljoin w fuel (with_dry_run a true) empty_Log)))
               \/ (open_wb w p = None
                   /\ exists count msg r3,
                        reply w 3 = Replied r3
                        /\ written (snd (download_sql_backup
                                           urljoin w fuel (with_dry_run a false)
                                           empty_Log))
                           = [(p, PyStr.take count (raw r3))]
                        /\ ((transfer w p = StreamBroken count msg
                             /\ fst (download_sql_backup
                                       urljoin w fuel (with_dry_run a false)
                                       empty_Log)
                                = Raise (RequestException msg))
                            \/ (transfer w p = WriteFailed count msg
                                /\ fst (download_sql_backup
                                          urljoin w fuel (with_dry_run a false)
                                          empty_Log)
                                   = Raise (OSError msg)))))).
Proof.
  rewrite !run_unfolded.
  run_split w;
    rewrite ?dry_login_page_request, ?dry_login_request,
      ?dry_export_page_request, ?dry_dump_request, ?dry_warning_lines;
    try (repeat split;
         first [reflexivity | (intros ? H; exact H) | now left]).
  rewrite !finish_unfolded, !dry_name_output. cbn [dry_run with_dry_run].
  match goal with
  | |- context [name_output w fuel a r3 ?l] =>
      destruct (name_output_log w fuel a r3 l) as (_ & Hwritten & _);
      destruct (name_output w fuel a r3 l) as [[p|e|] l1]
  end; cbn [snd fst] in Hwritten |- *;
    try (repeat split;
         first [assumption | reflexivity | (intros ? H; exact H) | now left]).
  destruct (open_wb w p) as [msg|] eqn:Hopen;
    [|destruct (transfer w p) as [|count msg|count msg] eqn:Htransfer];
    cbn [snd fst sent stderr written].
  - repeat split; try assumption; try discriminate.
    right. exists p. split; [reflexivity|]. left. now exists msg.
  - repeat split;
      first [assumption | reflexivity | (intros ? H; exact H) | now left].
  - repeat split; try assumption; try discriminate.
    right. exists p. split; [reflexivity|]. right. split; [exact Hopen|].
    exists count, msg, r3. rewrite Hwritten.
    split; [reflexivity|]. split; [reflexivity|]. left. now split.
  - repeat split; try assumption; try discriminate.
    right. exists p. split; [reflexivity|]. right. split; [exact Hopen|].
    exists count, msg, r3. rewrite Hwritten.
    split; [reflexivity|]. split; [reflexivity|]. right. now split.
Qed.

(* ================================================================== *)
(** * The command line *)
(* ================================================================== *)





(* ================================================================== *)
(** * What a form hands over *)
(* ================================================================== *)


(** X10.  The inputs the script collects from a form, by its [id] for the
    login and by its [name] for the export, are exactly the [input]
    elements of type [hidden] that lie inside such a form, at any depth: no
    visible input, and no input outside the form, is ever among them. *)
Theorem hidden_inputs_are_those_inside_the_form
        (name v : string) (tree : Element) (h : Element) :
  In h (XPath.form_hidden_inputs name v tree)
  <-> tag h = "input" /\ get_attr h "type" = Some "hidden"
      /\ exists f, In f (XPath.descendant_or_self tree)
                   /\ tag f = "form" /\ get_attr f name = Some v
                   /\ In h (XPath.descendants f).
Proof.
  assert (Hform : forall f, XPath.is_form_with name v f = true
                            <-> tag f = "form" /\ get_attr f name = Some v).
  { intros f. unfold XPath.is_form_with, attr_is.
    rewrite andb_true_iff, String.eqb_eq.
    destruct (get_attr f name) as [x|].
    - rewrite String.eqb_eq. split; intros [? H]; split; congruence.
    - split; intros [? H]; discriminate. }
  assert (Hhidden : XPath.is_hidden_input h = true
                    <-> tag h = "input" /\ get_attr h "type" = Some "hidden").
  { unfold XPath.is_hidden_input, attr_is.
    rewrite andb_true_iff, String.eqb_eq.
    destruct (get_attr h "type") as [x|].
    - rewrite String.eqb_eq. split; intros [? H]; split; congruence.
    - split; intros [? H]; discriminate. }
  unfold XPath.form_hidden_inputs. split.
  - intros Hin.
    destruct (hidden_inputs_under_sound name v tree false h Hin)
      as (Hh & [(Hfalse & _) | (f & Hf & Hm & Hd)]); [discriminate|].
    apply Hhidden in Hh as [Ht Ha]. apply Hform in Hm as [Hft Hfa].
    repeat split; try assumption. now exists f.
  - intros (Ht & Ha & f & Hf & Hft & Hfa & Hd).
    apply hidden_inputs_under_complete with f; try assumption.
    + apply Hform. now split.
    + apply Hhidden. now split.
Qed.




(** X12.  The databases the script finds on the export page are the
    values of the [option] elements that are children of a [select] named
    [db_select[]]: an option without value, an option deeper down, or one
    of another select, offers nothing. *)
Theorem available_databases_are_the_options
        (tree : Element) (db : string) :
  In db (XPath.db_select_option_value tree)
  <-> exists s o,
        In s (XPath.descendant_or_self tree)
        /\ tag s = "select" /\ get_attr s "name" = Some "db_select[]"
        /\ In o (children s)
        /\ tag o = "option" /\ get_attr o "value" = Some db.
Proof.
  assert (Hsel : forall s,
             String.eqb (tag s) "select" && attr_is s "name" "db_select[]" = true
             <-> tag s = "select" /\ get_attr s "name" = Some "db_select[]").
  { intros s. unfold attr_is. rewrite andb_true_iff, String.eqb_eq.
    destruct (get_attr s "name") as [x|].
    - rewrite String.eqb_eq. split; intros [? H]; split; congruence.
    - split; intros [? H]; discriminate. }
  assert (Hopt : forall pm o,
             In db (if pm && String.eqb (tag o) "option"
                    then XPath.attr_values "value" [o] else [])
             <-> pm = true /\ tag o = "option" /\ get_attr o "value" = Some db).
  { intros pm o. destruct pm; cbn [andb].
    - destruct (String.eqb_spec (tag o) "option") as [Ht|Ht].
      + rewrite in_attr_values. split.
        * intros (e & [<-|[]] & Hv). now repeat split.
        * intros (_ & _ & Hv). exists o. split; [now left | exact Hv].
      + split; [intros [] | intros (_ & Ht' & _); contradiction].
    - split; [intros [] | intros (H & _); discriminate]. }
  assert (Hgen : forall e pm,
             In db (XPath.select_option_values pm e)
             <-> (pm = true /\ tag e = "option" /\ get_attr e "value" = Some db)
                 \/ exists s o,
                      In s (XPath.descendant_or_self e)
                      /\ tag s = "select"
                      /\ get_attr s "name" = Some "db_select[]"
                      /\ In o (children s)
                      /\ tag o = "option" /\ get_attr o "value" = Some db).
  { induction e as [t a cs IH] using Element_rect_children. intros pm.
    rewrite Forall_forall in IH.
    cbn [XPath.select_option_values]. rewrite in_app_iff, Hopt, in_flat_map.
    split.
    - intros [Hself | (c & Hc & Hin)]; [now left|]. right.
      apply (IH c Hc) in Hin as [(Hs & Ht & Hv) | (s & o & Hs & Hrest)].
      + exists (Elem t a cs), c. apply Hsel in Hs as [Hst Hsn].
        split; [cbn [XPath.descendant_or_self]; now left|].
        now repeat split.
      + exists s, o. split; [|exact Hrest].
        now apply in_descendant_or_self_child with c.
    - intros [Hself | (s & o & Hs & Hst & Hsn & Ho & Hot & Hov)]; [now left|].
      right. cbn [XPath.descendant_or_self] in Hs. destruct Hs as [<- | Hs].
      + cbn [children] in Ho. exists o. split; [exact Ho|].
        apply IH; [exact Ho|]. left. split; [|now split].
        apply Hsel. now split.
      + apply in_flat_map in Hs as (c & Hc & Hs). exists c.
        split; [exact Hc|]. apply IH; [exact Hc|]. right.
        exists s, o. now repeat split. }
  unfold XPath.db_select_option_value. rewrite Hgen. split.
  - intros [(H & _) | H]; [discriminate | exact H].
  - intros H. now right.
Qed.

(* ================================================================== *)
(** * The list of exclusions *)
(* ================================================================== *)

Lemma join_split_acc (c : ascii) (s cur : string) :
  PyStr.join (String c EmptyString) (PyStr.split_acc c s cur) = cur +++ s.
Proof.
  revert cur. induction s as [|x s IH]; intros cur.
  - cbn. now rewrite str_app_nil_r.
  - cbn [PyStr.split_acc]. destruct (Ascii.eqb_spec x c) as [->|Hne].
    + specialize (IH EmptyString).
      destruct (PyStr.split_acc c s EmptyString) as [|y ys] eqn:E.
      * destruct s; cbn in E; [discriminate|].
        destruct (Ascii.eqb a c); discriminate.
      * cbn [PyStr.join]. fold (PyStr.join (String c EmptyString) (y :: ys)).
        change (match ys with
                | [] => y
                | _ :: _ => y +++ String c EmptyString
                              +++ PyStr.join (String c EmptyString) ys
                end) with (PyStr.join (String c EmptyString) (y :: ys)) in *.
        now rewrite IH.
    + rewrite IH, str_app_assoc. reflexivity.
Qed.


Lemma split_acc_pieces (c : ascii) (s cur : string) :
  all_chars (Re.not_char c) cur = true ->
  Forall (fun piece => all_chars (Re.not_char c) piece = true)
         (PyStr.split_acc c s cur).
Proof.
  revert cur. induction s as [|x s IH]; intros cur Hcur.
  - now constructor.
  - cbn [PyStr.split_acc]. destruct (Ascii.eqb x c) eqn:E.
    + constructor; [exact Hcur | now apply IH].
    + apply IH. rewrite all_chars_app, Hcur. cbn. unfold Re.not_char.
      now rewrite E.
Qed.

(** X13.  The exclusions are the pieces of the text given, cut at every
    comma and at nothing else: joined again with commas they give the text
    back, character for character, blanks included, and no piece holds a
    comma.  No text, or the empty text, excludes nothing. *)
Theorem exclusions_are_the_comma_separated_pieces (a : Args) :
  (forall s, exclude_dbs a = Some s -> s <> EmptyString ->
             PyStr.join "," (excluded a) = s
             /\ Forall (fun piece => all_chars (Re.not_char ",") piece = true)
                       (excluded a)
             /\ excluded a <> [])
  /\ (exclude_dbs a = None \/ exclude_dbs a = Some EmptyString ->
      excluded a = []).
Proof.
  unfold excluded. split.
  - intros s Hs Hne. rewrite Hs. destruct s as [|x s]; [contradiction|].
    cbn [PyStr.truthy]. unfold PyStr.split. repeat split.
    + apply (join_split_acc "," (String x s) EmptyString).
    + now apply split_acc_pieces.
    + intros Hnil.
      pose proof (join_split_acc "," (String x s) EmptyString) as Hjoin.
      rewrite Hnil in Hjoin. discriminate.
  - intros [-> | ->]; reflexivity.
Qed.

(* ================================================================== *)
(** * The header of the usual shape *)
(* ================================================================== *)

Lemma first_quote_split (q : ascii) (a : string) :
  forall b x y,
    all_chars (Re.not_char q) a = true ->
    a +++ String q b = x +++ String q y ->
    (x = a /\ y = b) \/ exists z, x = a +++ String q z /\ b = z +++ String q y.
Proof.
  induction a as [|c a IH]; intros b x y Ha H.
  - destruct x as [|c' x]; cbn in H.
    + injection H as ->. now left.
    + injection H as <- ->. right. now exists x.
  - cbn in Ha. apply andb_prop in Ha as [Hc Ha].
    destruct x as [|c' x]; cbn in H.
    + injection H as -> _. unfold Re.not_char in Hc.
      now rewrite Ascii.eqb_refl in Hc.
    + injection H as <- H. destruct (IH b x y Ha H) as [[-> ->] | (z & -> & ->)].
      * now left.
      * right. now exists z.
Qed.

Lemma quote_is_no_other_char (q : ascii) (x y : string) :
  all_chars (Re.not_char q) (x +++ String q y) = false.
Proof.
  rewrite all_chars_app. cbn. unfold Re.not_char at 2.
  rewrite Ascii.eqb_refl. cbn. apply andb_false_r.
Qed.

(** X14.  From a header value with one pair of quotes, those around the
    value of [filename=], the script takes exactly the text between them:
    [attachment; filename=Qdump.sqlQ; size=3] suggests [dump.sql], whatever
    stands before and after, as long as it has no quote and the value is on
    one line. *)
Theorem plain_header_suggests_the_quoted_name (pre f post : string) :
  all_chars Re.dot pre = true ->
  all_chars (Re.not_char dquote) pre = true ->
  f <> EmptyString ->
  all_chars (Re.not_char dquote) f = true ->
  all_chars (Re.not_char dquote) post = true ->
  line_tail post ->
  Re.re_match CONTENT_DISPOSITION_FILENAME_RE
              (pre +++ filename_eq_quote +++ f +++ String dquote post)
  = Some (Some f).
Proof.
  intros Hpre Hprenq Hne Hf Hpost Htail.
  set (hdr := pre +++ filename_eq_quote +++ f +++ String dquote post).
  assert (Hq : quoted_filename hdr f).
  { exists pre, post. now repeat split. }
  destruct (Re.re_match CONTENT_DISPOSITION_FILENAME_RE hdr) as [g|] eqn:E;
    [|now contradiction (header_match_complete hdr f Hq)].
  destruct (header_match_sound hdr g E)
    as (f' & -> & pre' & post' & Hhdr & _ & _ & Hf' & _).
  do 2 f_equal.
  assert (Hcut : forall x rest,
             x +++ filename_eq_quote +++ rest
             = (x +++ "filename=") +++ String dquote rest).
  { intros x rest. now rewrite str_app_assoc. }
  unfold hdr in Hhdr. rewrite !Hcut in Hhdr.
  assert (Hhead : all_chars (Re.not_char dquote) (pre +++ "filename=") = true).
  { rewrite all_chars_app, Hprenq. reflexivity. }
  destruct (first_quote_split dquote _ _ _ _ Hhead Hhdr)
    as [[_ Hrest] | (z & _ & Hrest)].
  - symmetry in Hrest.
    destruct (first_quote_split dquote _ _ _ _ Hf Hrest)
      as [[-> _] | (z & -> & _)]; [reflexivity|].
    now rewrite quote_is_no_other_char in Hf'.
  - destruct (first_quote_split dquote _ _ _ _ Hf Hrest)
      as [[_ Hbad] | (z' & _ & Hbad)].
    + rewrite <- Hbad in Hpost. now rewrite quote_is_no_other_char in Hpost.
    + rewrite Hbad in Hpost. now rewrite quote_is_no_other_char in Hpost.
Qed.

(** The theorem above at [attachment; filename=Qshop_logs.sqlQ]. *)
Lemma plain_header_suggests_the_quoted_name_witness :
  Re.re_match CONTENT_DISPOSITION_FILENAME_RE Console.attachment
  = Some (Some "shop_logs.sql").
Proof.
  apply (plain_header_suggests_the_quoted_name
           "attachment; " "shop_logs.sql" EmptyString);
    try reflexivity; try discriminate.
  now left.
Defined.

(* ================================================================== *)
(** * Where the password goes, and how requests are made *)
(* ================================================================== *)

Lemma finish_with_password (w : World) (fuel : nat) (a : Args) (p : string)
      (r : Response) (l : Log) :
  finish w fuel (with_password a p) r l = finish w fuel a r l.
Proof. reflexivity. Qed.

Lemma dump_request_with_password (urljoin : string -> string -> string)
      (a : Args) (p : string) (tree : Element) (action : string) :
  dump_request urljoin (with_password a p) tree action
  = dump_request urljoin a tree action.
Proof. reflexivity. Qed.

Lemma export_page_request_with_password
      (urljoin : string -> string -> string) (a : Args) (p href : string) :
  export_page_request urljoin (with_password a p) href
  = export_page_request urljoin a href.
Proof. reflexivity. Qed.

Lemma login_page_request_with_password (a : Args) (p : string) :
  login_page_request (with_password a p) = login_page_request a.
Proof. reflexivity. Qed.

(** X15.  The password goes into the login and nowhere else: with the
    replies held fixed, a run with another password sends the same requests
    but for the second one, the login, and the two logins differ at most
    under the key [pma_password]. *)
Theorem password_is_sent_with_the_login_only
        (urljoin : string -> string -> string) (w : World)
        (fuel : nat) (a : Args) (p : string) :
  (forall k,
      k <> 1 ->
      nth_error (sent (snd (download_sql_backup urljoin w fuel a empty_Log))) k
      = nth_error
          (sent (snd (download_sql_backup urljoin w fuel (with_password a p)
                                          empty_Log))) k)
  /\ (forall req req',
        nth_error (sent (snd (download_sql_backup urljoin w fuel a empty_Log))) 1
        = Some req ->
        nth_error
          (sent (snd (download_sql_backup urljoin w fuel (with_password a p)
                                          empty_Log))) 1
        = Some req' ->
        method req' = method req /\ req_url req' = req_url req
        /\ req_timeout req' = req_timeout req /\ stream req' = stream req
        /\ exists d d',
             data req = Some d /\ data req' = Some d'
             /\ forall n, n <> "pma_password" ->
                          PyDict.get n d' = PyDict.get n d).
Proof.
  assert (Hdata : forall tree n,
             n <> "pma_password" ->
             PyDict.get n (login_form_data (with_password a p) tree)
             = PyDict.get n (login_form_data a tree)).
  { intros tree n Hn. unfold login_form_data.
    rewrite !get_fold_add_hidden_input.
    destruct (last_hidden_value n _); [reflexivity|].
    cbn [PyDict.get user password with_password].
    destruct (String.eqb "pma_username" n); [reflexivity|].
    apply not_eq_sym, String.eqb_neq in Hn. now rewrite Hn. }
  rewrite !run_unfolded.
  run_split w;
    rewrite ?login_page_request_with_password,
      ?export_page_request_with_password, ?dump_request_with_password,
      ?finish_with_password;
    rewrite ?finish_keeps_sent; cbn [snd log_of sent];
    (split;
     [ intros k Hk; destruct k as [|[|k]]; [reflexivity | contradiction
                                           | reflexivity]
     | intros req req' Hreq Hreq'; cbn [nth_error] in Hreq, Hreq';
       try discriminate;
       injection Hreq as <-; injection Hreq' as <-;
       cbn [method req_url req_timeout stream data login_request];
       repeat split;
       exists (login_form_data a (html_tree r0)),
              (login_form_data (with_password a p) (html_tree r0));
       repeat split; apply Hdata ]).
Qed.

(** X16.  Every request of a run is made with the timeout the caller
    gave; GET and POST alternate, beginning with GET, and only a POST has a
    body; and the export, the fourth request, is the only one that is
    streamed. *)
Theorem requests_use_the_timeout_given
        (urljoin : string -> string -> string) (w : World)
        (fuel : nat) (a : Args) :
  forall k req,
    nth_error (sent (snd (download_sql_backup urljoin w fuel a empty_Log))) k
    = Some req ->
    req_timeout req = timeout a
    /\ method req = (if Nat.even k then "GET" else "POST")
    /\ (data req = None <-> method req = "GET")
    /\ (stream req = true <-> k = 3).
Proof.
  intros k req. run_cases w; rewrite ?finish_keeps_sent;
    cbn [snd log_of sent];
    destruct k as [|[|[|[|k]]]]; cbn [nth_error]; intros Hreq;
    try discriminate; try (destruct k; discriminate);
    injection Hreq as <-; cbn;
    repeat split; intros; try discriminate; try reflexivity; try lia.
Qed.

(** The theorem above at the third request of the run against the
    console. *)
Lemma requests_use_the_timeout_given_witness :
  req_timeout (export_page_request Console.urljoin Console.args
                                   "server_export.php?x=1") = 60%Z
  /\ method (export_page_request Console.urljoin Console.args
                                 "server_export.php?x=1") = "GET".
Proof.
  destruct (requests_use_the_timeout_given
              Console.urljoin (Console.world Console.good_replies [])
              1 Console.args 2
              (export_page_request Console.urljoin Console.args
                                   "server_export.php?x=1")
              eq_refl) as (Ht & Hm & _).
  now split.
Defined.

(** X19.  When the login page comes with another status than 200 the
    command line ends with status 1 after that one request: the credentials
    are not sent, and the one line on stderr is
    [Error: Failed to load the login page.]. *)
Theorem unloaded_login_page_ends_the_command
        (urljoin : string -> string -> string) (w : World)
        (fuel : nat) (a : Args) (r0 : Response) :
  PyStr.truthy (prefix_format a) && negb (prepend_date a) = false ->
  reply w 0 = Replied r0 ->
  status_code r0 <> 200%Z ->
  main urljoin w fuel a empty_Log
  = (Exited 1, [],
     {| sent := [login_page_request a];
        stderr := ["Error: Failed to load the login page."];
        written := [] |}).
Proof.
  intros Hok E0 S0. unfold main. rewrite Hok.
  now rewrite (login_page_status_checked urljoin w fuel a r0 E0 S0).
Qed.

(** The theorem above at the console that answers the request for the
    login page with status 503. *)
Lemma unloaded_login_page_ends_the_command_witness :
  main Console.urljoin (Console.world Console2.refused_replies [])
       1 Console.args empty_Log
  = (Exited 1, [],
     {| sent := [login_page_request Console.args];
        stderr := ["Error: Failed to load the login page."];
        written := [] |}).
Proof.
  apply (unloaded_login_page_ends_the_command
           Console.urljoin (Console.world Console2.refused_replies [])
           1 Console.args
           {| status_code := 503; html_tree := Console.login_page;
              headers := []; raw := EmptyString |} eq_refl eq_refl).
  discriminate.
Defined.

(* ================================================================== *)
(** * What a returned path stands for *)
(* ================================================================== *)

Lemma name_output_Ret (w : World) (fuel : nat) (a : Args) (r : Response)
      (l : Log) (p : string) :
  fst (name_output w fuel a r l) = Ret p ->
  (exists f, quoted_filename
               (headers_get r "Content-Disposition" EmptyString) f)
  /\ (overwrite_existing a = false -> isfile w p = false).
Proof.
  unfold name_output, output_filename.
  destruct (Re.re_match CONTENT_DISPOSITION_FILENAME_RE _) as [g|] eqn:E;
    [|discriminate].
  destruct (header_match_sound _ g E) as (f & _ & Hq).
  unfold bind at 1. unfold ret at 1.
  set (out := PyPath.join _ _). clearbody out.
  unfold avoid_collision, bind, print_stderr, ret, diverge.
  intros Hret. split; [now exists f|]. intros Hover. rewrite Hover in Hret.
  cbn [negb] in Hret. rewrite andb_true_r in Hret.
  destruct (isfile w out) eqn:Hout.
  - destruct (PyPath.splitext out) as [base ext].
    destruct (alternate_loop w fuel base ext 1) as [alt|] eqn:Hloop;
      [|discriminate].
    injection Hret as <-.
    now apply alternate_loop_sound in Hloop as (N & _ & _ & Hfree & _).
  - now injection Hret as <-.
Qed.

(** X17.  A run returns a path only after all of this: the four replies
    arrived; the login page and the reply to the login had status 200, and
    the latter showed a marked link; the export page had the export form;
    the reply to the export named a file in quotes; the path returned is not
    that of an existing file, unless overwriting was asked for; and, unless
    it was a dry run, the file could be opened. *)
Theorem returned_path_guarantees
        (urljoin : string -> string -> string) (w : World)
        (fuel : nat) (a : Args) (p : string) :
  fst (download_sql_backup urljoin w fuel a empty_Log) = Ret p ->
  exists r0 r1 r2 r3 f,
    reply w 0 = Replied r0 /\ status_code r0 = 200%Z
    /\ reply w 1 = Replied r1 /\ status_code r1 = 200%Z
    /\ is_login_successful (html_tree r1) = true
    /\ reply w 2 = Replied r2
    /\ XPath.form_action "name" "dump" (html_tree r2) <> []
    /\ reply w 3 = Replied r3
    /\ quoted_filename (headers_get r3 "Content-Disposition" EmptyString) f
    /\ (overwrite_existing a = false -> isfile w p = false)
    /\ (dry_run a = false -> open_wb w p = None).
Proof.
  run_cases w; try (intros Hp; discriminate Hp).
  rewrite finish_unfolded.
  match goal with
  | |- context [name_output w fuel a r3 ?l] =>
      pose proof (name_output_Ret w fuel a r3 l) as Hname;
      destruct (name_output w fuel a r3 l) as [[q|e|] l1]
  end; try (intros Hp; discriminate Hp).
  destruct (Hname q eq_refl) as ((f & Hq) & Hfree).
  apply andb_prop in S1 as [S1 L1].
  apply Z.eqb_eq in S0. apply Z.eqb_eq in S1.
  destruct (dry_run a) eqn:Hdry.
  - intros [= <-]. exists r0, r1, r2, r3, f.
    repeat split; try assumption; try discriminate;
      first [rewrite Hform; discriminate | intros Hd; discriminate Hd].
  - destruct (open_wb w q) eqn:Hopen; [discriminate|].
    destruct (transfer w q); try discriminate.
    intros [= <-]. exists r0, r1, r2, r3, f.
    repeat split; try assumption; try discriminate;
      first [rewrite Hform; discriminate | intros _; exact Hopen].
Qed.

(** The theorem above at the run against the console. *)
Lemma returned_path_guarantees_witness :
  isfile (Console.world Console.good_replies []) "/srv/dumps/shop_logs.sql"
  = false.
Proof.
  destruct (returned_path_guarantees
              Console.urljoin (Console.world Console.good_replies [])
              1 Console.args "/srv/dumps/shop_logs.sql" eq_refl)
    as (r0 & r1 & r2 & r3 & f & H).
  now apply H.
Defined.

(** X18.  With finitely many existing files and more rounds than there
    are files, the run ends: it returns or fails, and the command line
    exits. *)
Theorem run_ends_when_files_are_finite
        (urljoin : string -> string -> string) (w : World)
        (fuel : nat) (a : Args) (files : list string) :
  (forall p, isfile w p = true -> In p files) ->
  length files < fuel ->
  fst (download_sql_backup urljoin w fuel a empty_Log) <> Diverges
  /\ fst (fst (main urljoin w fuel a empty_Log)) <> Hangs.
Proof.
  intros Hfiles Hfuel.
  assert (Hrun : fst (download_sql_backup urljoin w fuel a empty_Log)
                 <> Diverges).
  { run_cases w; try discriminate.
    rewrite finish_unfolded.
    match goal with
    | |- context [name_output w fuel a r3 ?l] =>
        assert (Hname : fst (name_output w fuel a r3 l) <> Diverges)
    end.
    { unfold name_output, output_filename.
      destruct (Re.re_match CONTENT_DISPOSITION_FILENAME_RE _) as [g|];
        [|discriminate].
      unfold bind at 1. unfold ret at 1.
      set (out := PyPath.join _ _). clearbody out.
      unfold avoid_collision, bind, print_stderr, ret, diverge.
      destruct (isfile w out && negb (overwrite_existing a)); [|discriminate].
      destruct (PyPath.splitext out) as [base ext].
      pose proof (alternate_loop_finite w base ext files fuel Hfiles Hfuel)
        as Hends.
      destruct (alternate_loop w fuel base ext 1); [discriminate|contradiction]. }
    match goal with
    | |- context [name_output w fuel a r3 ?l] =>
        destruct (name_output w fuel a r3 l) as [[q|e|] l1]
    end; try discriminate; [|now contradiction Hname].
    destruct (dry_run a); [discriminate|].
    destruct (open_wb w q); [discriminate|].
    destruct (transfer w q); discriminate. }
  split; [exact Hrun|]. unfold main.
  destruct (PyStr.truthy (prefix_format a) && negb (prepend_date a));
    [discriminate|].
  destruct (download_sql_backup urljoin w fuel a empty_Log) as [[q|e|] l'];
    try discriminate.
  now contradiction Hrun.
Qed.

(** The theorem above where two files exist. *)
Lemma run_ends_when_files_are_finite_witness :
  fst (download_sql_backup
         Console.urljoin
         (Console.world Console.good_replies
                        ["/srv/dumps/shop_logs.sql";
                         "/srv/dumps/shop_logs_(1).sql"])
         3 Console.args empty_Log) <> Diverges.
Proof.
  refine (proj1 (run_ends_when_files_are_finite
                   Console.urljoin
                   (Console.world Console.good_replies
                                  ["/srv/dumps/shop_logs.sql";
                                   "/srv/dumps/shop_logs_(1).sql"])
                   3 Console.args
                   ["/srv/dumps/shop_logs.sql"; "/srv/dumps/shop_logs_(1).sql"]
                   _ _)).
  - intros p Hp. now apply mem_iff.
  - cbn. lia.
Defined.

(* ================================================================== *)
(** * Runs against the console *)
(* ================================================================== *)

(** A link to the export outside the top menu passes for a login that
    worked, and is not followed. *)
Lemma stray_link_is_not_followed :
  is_login_successful Console2.stray_link_page = true
  /\ download_sql_backup Console.urljoin
                         (Console.world Console2.stray_link_replies [])
                         1 Console.args empty_Log
     = (Raise (ValueError "Could not find export URL."),
        log_of [login_page_request Console.args;
                login_request Console.urljoin Console.args Console.login_page]
               []).
Proof. split; vm_compute; reflexivity. Qed.

(** Blanks are part of the names to leave out. *)
Lemma blanks_are_kept_in_exclusions :
  excluded Console2.args_with_prefix_format = ["logs"; " shop"].
Proof. reflexivity. Qed.

(** An anchor named [topmenu] that comes before the menu is what
    [id('topmenu')] selects: the links of the menu are not looked at and the
    run ends with the error of line 93. *)
Lemma named_anchor_hides_the_menu :
  XPath.by_id "topmenu" Console2.named_anchor_page
  = Some (Elem "a" [("name", "topmenu")] [])
  /\ is_login_successful Console2.named_anchor_page = true
  /\ download_sql_backup Console.urljoin
                         (Console.world Console2.named_anchor_replies [])
                         1 Console.args empty_Log
     = (Raise (ValueError "Could not find export URL."),
        log_of [login_page_request Console.args;
                login_request Console.urljoin Console.args Console.login_page]
               []).
Proof. repeat split; vm_compute; reflexivity. Qed.

